(** * A retrieval-augmented chat service: the query path and the index builder

    Shallow embedding of [rag-api/rag_api.py] (the [/api/chat] endpoint:
    context formatting, history windowing, the streaming generator) and of
    [rag-api/vector_builder.py] ([build_vector_db]).

    Conventions.  Python [str] is [string]; text is taken to be ASCII.
    [f"{i}"] on an integer is the decimal printer [pretty].  A Python
    exception is a value of [exn]; code that may raise returns [exn + A].
    The collaborators the two files import (retriever, language-model chain,
    text splitter, embedding function) are Section variables. *)

From Stdlib Require Import ZArith Strings.String Strings.Ascii Lia Sorted.
From stdpp Require Import base option list strings pretty gmap.

(** ** Shared data *)

(** An instance of [Exception], with the text [str(e)] gives for it. *)
Inductive exn := Exception (msg : string).

Definition str_exn (e : exn) : string :=
  match e with Exception msg => msg end.

(** A value stored in a document's metadata dictionary. *)
Inductive meta_value :=
| MInt (z : Z)
| MStr (s : string).

(** [langchain_core.documents.Document]. *)
Record Document := mkDocument {
  page_content : string;
  metadata : gmap string meta_value
}.

(** The [exn + A] error monad: [inl] is a raised exception. *)
Definition result (A : Type) : Type := exn + A.

Definition raise {A} (e : exn) : result A := inl e.
Definition ret {A} (a : A) : result A := inr a.
Definition bind {A B} (c : result A) (k : A -> result B) : result B :=
  match c with
  | inl e => inl e
  | inr a => k a
  end.

Notation "x <-- c ;; k" := (bind c (fun x => k))
  (at level 100, c at next level, right associativity).

(** The newline character, as a one-character string. *)
Definition nl : string := String (ascii_of_nat 10) EmptyString.

(** Whether a text is ASCII: every character below 128. *)
Definition ascii_text (s : string) : bool :=
  forallb (fun a => nat_of_ascii a <? 128) (list_ascii_of_string s).

(** A hexadecimal digit, lower case. *)
Definition hex_digit (n : nat) : ascii :=
  if n <? 10 then ascii_of_nat (48 + n) else ascii_of_nat (87 + n).

(** One character inside [repr] of a str whose delimiter is [quote]: the
    backslash and the delimiter get a backslash, tab, line feed and
    carriage return their letter, the other control characters and 127
    their two hexadecimal digits; printable characters stand for
    themselves. *)
Definition repr_char (quote : ascii) (a : ascii) : string :=
  let backslash := ascii_of_nat 92 in
  let n := nat_of_ascii a in
  if Ascii.eqb a quote || Ascii.eqb a backslash
  then String backslash (String a EmptyString)
  else if n =? 9 then String backslash "t"
  else if n =? 10 then String backslash "n"
  else if n =? 13 then String backslash "r"
  else if (n <? 32) || (n =? 127)
  then String backslash
         (String "x" (String (hex_digit (n / 16))
                        (String (hex_digit (n mod 16)) EmptyString)))
  else String a EmptyString.

Fixpoint repr_chars (quote : ascii) (s : string) : string :=
  match s with
  | EmptyString => EmptyString
  | String a s' => repr_char quote a +:+ repr_chars quote s'
  end.

(** [repr] of a str, for ASCII text: between single quotes, or between
    double quotes when the text holds a single quote and no double one. *)
Definition py_repr (s : string) : string :=
  let single := ascii_of_nat 39 in
  let double := ascii_of_nat 34 in
  let chars := list_ascii_of_string s in
  let quote :=
    if existsb (Ascii.eqb single) chars && negb (existsb (Ascii.eqb double) chars)
    then double else single in
  String quote (repr_chars quote s +:+ String quote EmptyString).

(** A list slice [l[start:]] with Python's treatment of a negative start. *)
Definition py_slice_from {A} (start : Z) (l : list A) : list A :=
  let n := Z.of_nat (length l) in
  let lo := if (start <? 0)%Z then Z.max (n + start) 0 else Z.min start n in
  drop (Z.to_nat lo) l.

(** A string slice [s[:n]]. *)
Definition py_str_prefix (n : nat) (s : string) : string :=
  String.substring 0 n s.

(** ** rag_api.py *)

Module RagApi.

(** [class Message(BaseModel)]. *)
Record Message := mkMessage {
  role : string;
  content : string
}.

(** [class ChatRequest(BaseModel)]; [Optional] fields may be [None]. *)
Record ChatRequest := mkChatRequest {
  message : string;
  history : option (list Message);
  stream : option bool
}.

(** The dictionary handed to [chain.stream] and [chain.invoke]. *)
Record GenerationRequest := mkGenerationRequest {
  context : string;
  question : string;
  conversation_history : string
}.

(** Step 2 of [chat]: the loop over [enumerate(docs, 1)], with the counter
    and the accumulated string as loop state. *)
Definition context_step (st : nat * string) (doc : Document) : nat * string :=
  let '(i, ctx) := st in
  let ctx := ctx +:+ (nl +:+ "--- Document " +:+ pretty i +:+ " ---" +:+ nl) in
  let ctx := ctx +:+ page_content doc in
  let ctx := ctx +:+ nl in
  (S i, ctx).

Definition format_context (docs : list Document) : string :=
  snd (fold_left context_step docs (1, "")).

(** [request.history[-6:] if len(request.history) > 6 else request.history] *)
Definition recent_history (h : list Message) : list Message :=
  if 6 <? length h then py_slice_from (-6) h else h.

(** ["User" if msg.role == "user" else "Assistant"] *)
Definition role_label (msg : Message) : string :=
  if String.eqb (role msg) "user" then "User" else "Assistant".

Definition history_step (acc : string) (msg : Message) : string :=
  acc +:+ (role_label msg +:+ ": " +:+ content msg +:+ nl).

(** Step 3 of [chat].  [if request.history:] is false for [None] and for
    the empty list, and so is [if recent_history:]. *)
Definition format_history (h : option (list Message)) : string :=
  match h with
  | None | Some [] => ""
  | Some h =>
      match recent_history h with
      | [] => ""
      | recent =>
          fold_left history_step recent ("Previous conversation:" +:+ nl)
          +:+ nl
      end
  end.

(** What one [next()] on the token stream does; the end of the list is
    [StopIteration]. *)
Inductive outcome :=
| Yield (chunk : string)
| Raise (e : exn).

(** What [generate] yields: a [data:] line carrying [json.dumps] of a
    dictionary (string keys and string values, in the order written), or
    the literal [data: [DONE]] line. *)
Inductive event :=
| Data (payload : list (string * string))
| Done.

Definition content_event (chunk : string) : event :=
  Data [("token", chunk); ("type", "content")].

Definition error_event (e : exn) : event :=
  Data [("error", str_exn e)].

(** What a run of the inner [generate()] leaves behind: the events yielded,
    the number of [next()] calls made on the token stream, and the part of
    the stream that was never pulled. *)
Record run := mkRun {
  events : list event;
  pulled : nat;
  unread : list outcome
}.

(** The inner [generate()]: the [for] loop pulls the stream one item at a
    time and yields a content event for it; [StopIteration] ends the loop
    and [data: [DONE]] follows; an exception leaves the loop for the
    [except] branch, which yields the error event. *)
Fixpoint generate (tokens : list outcome) : run :=
  match tokens with
  | [] => {| events := [Done]; pulled := 1; unread := [] |}
  | Yield chunk :: rest =>
      let r := generate rest in
      {| events := content_event chunk :: events r;
         pulled := S (pulled r);
         unread := unread r |}
  | Raise e :: rest =>
      {| events := [error_event e]; pulled := 1; unread := rest |}
  end.

(** Concatenation of a list of strings, left to right. *)
Definition concat_strings (l : list string) : string :=
  foldr String.append "" l.

(** The block of the retrieved fragment at 1-based position [i], as the
    claim on context formatting words it: a marker holding [Document i],
    then the fragment's text. *)
Definition document_block (i : nat) (doc : Document) : string :=
  nl +:+ "--- Document " +:+ pretty i +:+ " ---" +:+ nl
  +:+ page_content doc +:+ nl.

(** The context as a concatenation of blocks in retrieval order. *)
Definition context_of (docs : list Document) : string :=
  concat_strings (imap (fun k doc => document_block (S k) doc) docs).

(** The history block for a window of turns, given the label of each. *)
Definition history_block_of (labels : list string) (turns : list Message)
  : string :=
  ("Previous conversation:" +:+ nl)
  +:+ concat_strings
        (zip_with (fun l msg => l +:+ ": " +:+ content msg +:+ nl)
                  labels turns)
  +:+ nl.

(** The three bodies [chat] can answer with. *)
Inductive response :=
| StreamingResponse (events : list event)
| JsonResponse (answer : string) (sources : list string)
| HTTPException (status_code : nat) (detail : string).

Section Chat.

(** [retriever.invoke], [chain.stream] and [chain.invoke]. *)
Variable retriever_invoke : string -> result (list Document).
Variable chain_stream : GenerationRequest -> list outcome.
Variable chain_invoke : GenerationRequest -> result string.

Definition assemble (request : ChatRequest) (docs : list Document)
  : GenerationRequest :=
  {| context := format_context docs;
     question := message request;
     conversation_history := format_history (history request) |}.

Definition chat (request : ChatRequest) : response :=
  match retriever_invoke (message request) with
  | inl e => HTTPException 500 (str_exn e)
  | inr docs =>
      let req := assemble request docs in
      match stream request with
      | Some true => StreamingResponse (events (generate (chain_stream req)))
      | _ =>
          match chain_invoke req with
          | inl e => HTTPException 500 (str_exn e)
          | inr answer =>
              JsonResponse answer
                (map (fun doc => py_str_prefix 200 (page_content doc) +:+ "...")
                     docs)
          end
      end
  end.

End Chat.

End RagApi.

(** ** vector_builder.py *)

Module VectorBuilder.

(** A cell of the data frame: missing ([NaN]), text, or an integer
    (floating-point cells are left out). *)
Inductive cell :=
| NA
| Text (s : string)
| Int (z : Z).

(** [pd.isna] *)
Definition isna (c : cell) : bool :=
  match c with NA => true | _ => false end.

(** [str] on a cell. *)
Definition str_cell (c : cell) : string :=
  match c with
  | NA => "nan"
  | Text s => s
  | Int z => pretty z
  end.

(** The ASCII characters [str.strip()] removes: tab to carriage return, the
    four separators 28 to 31, and the space.  (Outside ASCII it removes
    further characters, which the ASCII model of text leaves out.) *)
Definition is_space (c : ascii) : bool :=
  let n := nat_of_ascii c in
  ((9 <=? n) && (n <=? 13)) || ((28 <=? n) && (n <=? 31)) || (n =? 32).

Fixpoint lstrip (s : string) : string :=
  match s with
  | EmptyString => EmptyString
  | String c s' => if is_space c then lstrip s' else s
  end.

Fixpoint rstrip (s : string) : string :=
  match s with
  | EmptyString => EmptyString
  | String c s' =>
      match rstrip s' with
      | EmptyString => if is_space c then EmptyString else String c EmptyString
      | r => String c r
      end
  end.

Definition strip (s : string) : string := rstrip (lstrip s).

(** Truth value of a string: empty is false. *)
Definition truthy (s : string) : bool :=
  match s with EmptyString => false | _ => true end.

(** One row of the frame: column name to cell. *)
Abbreviation row := (gmap string cell).

(** What the summary prints. *)
Record report := mkReport {
  documents_processed : nat;
  fragments_created : nat;
  documents_skipped : nat
}.

(** [f"doc_{i}" for i in range(n)] *)
Definition make_ids (n : nat) : list string :=
  map (fun i => "doc_" +:+ pretty i) (seq 0 n).

(** [pd.isna(row[content_column]) or not str(row[content_column]).strip()] *)
Definition no_content (c : cell) : bool :=
  isna c || negb (truthy (strip (str_cell c))).

(** The metadata dictionary of the row with index [i]. *)
Definition metadata_step (r : row) (md : gmap string meta_value) (col : string)
  : gmap string meta_value :=
  match r !! col with
  | Some c => if negb (isna c) then <[col := MStr (str_cell c)]> md else md
  | None => md
  end.

Definition build_metadata (i : nat) (metadata_columns : option (list string))
    (r : row) : gmap string meta_value :=
  let md : gmap string meta_value := {[ "row_id" := MInt (Z.of_nat i) ]} in
  match metadata_columns with
  | None | Some [] => md
  | Some cols => fold_left (metadata_step r) cols md
  end.

(** The loop over [df.iterrows()], with [documents] and [skipped] as loop
    state; [row[content_column]] raises [KeyError] on a missing column, and
    [str] of a [KeyError] is [repr] of the key. *)
Fixpoint process_rows (content_column : string)
    (metadata_columns : option (list string))
    (i : nat) (rows : list row) (documents : list Document) (skipped : nat)
  : result (list Document * nat) :=
  match rows with
  | [] => ret (documents, skipped)
  | r :: rest =>
      match r !! content_column with
      | None => raise (Exception (py_repr content_column))
      | Some c =>
          if no_content c then
            process_rows content_column metadata_columns (S i) rest
              documents (S skipped)
          else
            let doc := {| page_content := str_cell c;
                          metadata := build_metadata i metadata_columns r |} in
            process_rows content_column metadata_columns (S i) rest
              (documents ++ [doc]) skipped
      end
  end.

(** The rows the loop counts as skipped, and the documents it makes of the
    others, in closed form ([i] is the index of the first row). *)
Definition row_skipped (content_column : string) (r : row) : bool :=
  match r !! content_column with
  | Some c => no_content c
  | None => false
  end.

Fixpoint documents_of (content_column : string)
    (metadata_columns : option (list string)) (i : nat) (rows : list row)
  : list Document :=
  match rows with
  | [] => []
  | r :: rest =>
      let tail := documents_of content_column metadata_columns (S i) rest in
      match r !! content_column with
      | Some c =>
          if no_content c then tail
          else {| page_content := str_cell c;
                  metadata := build_metadata i metadata_columns r |} :: tail
      | None => tail
      end
  end.

(** The checks the constructor of the text splitter makes on its sizes
    (lines 55 to 59 call it; the library is not among the sources): a chunk
    size of 0 and an overlap above the chunk size raise [ValueError]. *)
Definition text_splitter_init (chunk_size chunk_overlap : nat) : result unit :=
  if chunk_size =? 0 then
    raise (Exception ("chunk_size must be > 0, got " +:+ pretty chunk_size))
  else if chunk_size <? chunk_overlap then
    raise (Exception ("Got a larger chunk overlap (" +:+ pretty chunk_overlap
                      +:+ ") than chunk size (" +:+ pretty chunk_size
                      +:+ "), should be smaller."))
  else ret tt.

Section Build.

(** The collaborators: the embedding function (which may raise) and the
    text splitter's [split_text] for a chunk size and a chunk overlap. *)
Variable vector : Type.
Variable embed : string -> result vector.
Variable split_text : nat -> nat -> string -> list string.

(** Modelled from the spec: [text_splitter.split_documents] (the splitter
    library is not among the sources).  The chunker produces the fragments
    of each document, in document order, and each fragment inherits a copy
    of its document's metadata. *)
Definition split_documents (chunk_size chunk_overlap : nat)
    (documents : list Document) : list Document :=
  flat_map
    (fun doc =>
       map (fun chunk => {| page_content := chunk; metadata := metadata doc |})
           (split_text chunk_size chunk_overlap (page_content doc)))
    documents.

(** An entry of the vector index. *)
Record entry := mkEntry {
  entry_embedding : vector;
  entry_text : string;
  entry_metadata : gmap string meta_value
}.

(** Modelled from the spec: the Vector Index behind [Chroma] (the storage
    library is not among the sources).  A named collection of
    fragment_id -> (embedding, metadata, text); [upsert] inserts or replaces
    the entry for [fragment_id]. *)
Definition upsert (fragment_id : string) (e : entry)
    (index : gmap string entry) : gmap string entry :=
  <[fragment_id := e]> index.

Fixpoint embed_documents (texts : list string) : result (list vector) :=
  match texts with
  | [] => ret []
  | t :: rest =>
      v <-- embed t ;;
      vs <-- embed_documents rest ;;
      ret (v :: vs)
  end.

(** The key and the entry an upsert item stands for. *)
Definition item_binding (item : string * Document * vector)
  : string * entry :=
  (item.1.1,
   {| entry_embedding := item.2;
      entry_text := page_content item.1.2;
      entry_metadata := metadata item.1.2 |}).

Definition upsert_step (index : gmap string entry)
    (item : string * Document * vector) : gmap string entry :=
  let '(fragment_id, doc, v) := item in
  upsert fragment_id
    {| entry_embedding := v;
       entry_text := page_content doc;
       entry_metadata := metadata doc |}
    index.

(** Modelled from the spec: [Chroma.from_documents] on the collection
    persisted at [db_path], whose present content is [index]: each fragment
    is embedded and upserted under its id. *)
Definition from_documents (index : gmap string entry)
    (split_docs : list Document) (ids : list string)
  : result (gmap string entry) :=
  vs <-- embed_documents (map page_content split_docs) ;;
  ret (fold_left upsert_step (zip (zip ids split_docs) vs) index).

(** Modelled from the spec: [similarity_search] embeds the query; its
    results are only printed. *)
Definition similarity_search (query : string) : result unit :=
  _ <-- embed query ;; ret tt.

Definition load_documents (content_column : string)
    (metadata_columns : option (list string)) (rows : list row)
  : result (list Document * nat) :=
  process_rows content_column metadata_columns 0 rows [] 0.

(** [build_vector_db], from the rows [pd.read_csv] returned and with the
    embedding model loaded; [index] is what the collection at [db_path]
    holds before the call.  The splitter is constructed before the rows are
    looked at. *)
Definition build_vector_db (index : gmap string entry) (rows : list row)
    (content_column : string) (metadata_columns : option (list string))
    (chunk_size chunk_overlap : nat)
  : result (gmap string entry * report) :=
  _ <-- text_splitter_init chunk_size chunk_overlap ;;
  loaded <-- load_documents content_column metadata_columns rows ;;
  let '(documents, skipped) := loaded in
  let split_docs := split_documents chunk_size chunk_overlap documents in
  let ids := make_ids (length split_docs) in
  vector_store <-- from_documents index split_docs ids ;;
  _ <-- similarity_search "test query" ;;
  ret (vector_store,
       {| documents_processed := length documents;
          fragments_created := length split_docs;
          documents_skipped := skipped |}).

End Build.

Arguments mkEntry {vector}.
Arguments entry_embedding {vector}.
Arguments entry_text {vector}.
Arguments entry_metadata {vector}.

(** A splitter to run the builder on examples: windows of [chunk_size]
    characters, each starting [chunk_size - chunk_overlap] characters after
    the one before. *)
Fixpoint windows (fuel size step : nat) (s : string) : list string :=
  match fuel with
  | 0 => []
  | S fuel' =>
      if String.length s =? 0 then []
      else if String.length s <=? size then [s]
      else String.substring 0 size s
           :: windows fuel' size step
                (String.substring step (String.length s - step) s)
  end.

Definition window_split (chunk_size chunk_overlap : nat) (text : string)
  : list string :=
  windows (String.length text) chunk_size (chunk_size - chunk_overlap) text.

(** An embedding function to run the builder on examples: it fails on the
    text ["bad"] and otherwise returns the length of the text. *)
Definition length_embed (text : string) : result nat :=
  if String.eqb text "bad" then raise (Exception "EmbeddingUnavailable")
  else ret (String.length text).

(** A row with only a [content] column. *)
Definition content_row (text : string) : row := {[ "content" := Text text ]}.

(** What a build left in the index under [fragment_id]: the text and the
    [row_id] of the entry, if the build returned and the id is present. *)
Definition stored_fragment {vector : Type} (fragment_id : string)
    (built : result (gmap string (entry vector) * report))
  : option (string * option meta_value) :=
  match built with
  | inl _ => None
  | inr (index, _) =>
      (fun e => (entry_text e, entry_metadata e !! "row_id"))
        <$> index !! fragment_id
  end.

End VectorBuilder.

(** * Properties *)

(** ** Strings *)

Lemma string_app_nil_r (s : string) : s +:+ "" = s.
Proof.
  induction s as [|a s IH]; [reflexivity|].
  change (String a (s +:+ "") = String a s). by rewrite IH.
Qed.

Lemma string_app_assoc (s1 s2 s3 : string) :
  (s1 +:+ s2) +:+ s3 = s1 +:+ (s2 +:+ s3).
Proof.
  induction s1 as [|a s1 IH]; [reflexivity|].
  change (String a ((s1 +:+ s2) +:+ s3) = String a (s1 +:+ (s2 +:+ s3))).
  by rewrite IH.
Qed.

(** ** The streaming generator *)

Section Streaming.
Import RagApi.

Lemma generate_tokens_then_stop (toks : list string) :
  generate (Yield <$> toks)
  = {| events := (content_event <$> toks) ++ [Done];
       pulled := S (length toks);
       unread := [] |}.
Proof.
  induction toks as [|t toks IH]; [reflexivity|].
  cbn [fmap list_fmap generate]. fold (fmap (M:=list) Yield toks).
  rewrite IH. reflexivity.
Qed.

Lemma generate_tokens_then_raise (toks : list string) e rest :
  generate ((Yield <$> toks) ++ Raise e :: rest)
  = {| events := (content_event <$> toks) ++ [error_event e];
       pulled := S (length toks);
       unread := rest |}.
Proof.
  induction toks as [|t toks IH]; [reflexivity|].
  cbn [fmap list_fmap app generate]. fold (fmap (M:=list) Yield toks).
  rewrite IH. reflexivity.
Qed.

Lemma Done_not_content (toks : list string) : Done ∉ content_event <$> toks.
Proof.
  intros [t [Ht _]]%list_elem_of_fmap. discriminate Ht.
Qed.

(** C1.  For a token stream that yields [toks] and then ends, [generate]
    emits one content event per token, in order, then the one success
    marker.  For a stream that raises [e] after yielding [toks], it emits
    the content events of [toks], then one error event carrying [str(e)]
    and nothing after it: no success marker; it has made one [next()] call
    per token plus the one that raised, and whatever the stream would have
    produced next is left unread. *)
Theorem generate_stream_contract :
  (forall toks : list string,
      let r := generate (Yield <$> toks) in
      events r
      = ((fun t => Data [("token", t); ("type", "content")]) <$> toks)
        ++ [Done]
      /\ pulled r = S (length toks)
      /\ unread r = [])
  /\ (forall (toks : list string) (e : exn) (rest : list outcome),
        let r := generate ((Yield <$> toks) ++ Raise e :: rest) in
        events r
        = ((fun t => Data [("token", t); ("type", "content")]) <$> toks)
          ++ [Data [("error", str_exn e)]]
        /\ pulled r = S (length toks)
        /\ unread r = rest
        /\ Done ∉ events r).
Proof.
  split.
  { intros toks r. subst r. by rewrite generate_tokens_then_stop. }
  intros toks e rest r. subst r. rewrite generate_tokens_then_raise. cbn.
  repeat split.
  intros [H|H]%elem_of_app.
  - by apply Done_not_content in H.
  - apply list_elem_of_singleton in H. discriminate H.
Qed.

End Streaming.

(** ** Context formatting and history windowing *)

Section Assembly.
Import RagApi.

Lemma concat_strings_app (l1 l2 : list string) :
  concat_strings (l1 ++ l2) = concat_strings l1 +:+ concat_strings l2.
Proof.
  induction l1 as [|s l1 IH]; [reflexivity|].
  cbn [app concat_strings foldr]. fold (concat_strings (l1 ++ l2)).
  fold (concat_strings l1). by rewrite IH, string_app_assoc.
Qed.

Lemma context_step_block i ctx doc :
  context_step (i, ctx) doc = (S i, ctx +:+ document_block i doc).
Proof.
  unfold context_step, document_block. f_equal.
  by rewrite !string_app_assoc.
Qed.

(** The loop invariant of Step 2: after the loop has run over [docs] from
    counter [i] and text [ctx], the text is [ctx] followed by the blocks of
    [docs] numbered from [i]. *)
Lemma fold_context_step (docs : list Document) i ctx :
  fold_left context_step docs (i, ctx)
  = (i + length docs,
     ctx +:+ concat_strings (imap (fun k doc => document_block (i + k) doc) docs)).
Proof.
  revert i ctx. induction docs as [|doc docs IH]; intros i ctx.
  - cbn. by rewrite Nat.add_0_r, string_app_nil_r.
  - cbn [fold_left]. rewrite context_step_block, IH.
    cbn [length imap concat_strings foldr]. f_equal; [lia|].
    rewrite string_app_assoc, Nat.add_0_r. do 2 f_equal.
    unfold concat_strings. f_equal. apply imap_ext. intros k d _. cbn.
    f_equal. lia.
Qed.

Lemma format_context_blocks (docs : list Document) :
  format_context docs = context_of docs.
Proof.
  unfold format_context, context_of. rewrite fold_context_step. cbn [snd].
  reflexivity.
Qed.

Lemma py_slice_last {A} (k : nat) (l : list A) :
  py_slice_from (- Z.of_nat (S k)) l = drop (length l - S k) l.
Proof.
  unfold py_slice_from.
  destruct (Z.ltb_spec (- Z.of_nat (S k)) 0) as [_|H]; [|lia].
  f_equal. lia.
Qed.

Lemma recent_history_drop (h : list Message) :
  recent_history h = drop (length h - 6) h.
Proof.
  unfold recent_history. destruct (Nat.ltb_spec 6 (length h)) as [H|H].
  - exact (py_slice_last 5 h).
  - replace (length h - 6) with 0 by lia. reflexivity.
Qed.

Lemma fold_history_step (turns : list Message) acc :
  fold_left history_step turns acc
  = acc +:+ concat_strings
              (map (fun msg => role_label msg +:+ ": " +:+ content msg +:+ nl)
                   turns).
Proof.
  revert acc. induction turns as [|msg turns IH]; intros acc.
  - cbn. by rewrite string_app_nil_r.
  - cbn [fold_left map concat_strings foldr]. rewrite IH.
    unfold history_step. by rewrite string_app_assoc.
Qed.

Lemma zip_with_labels (turns : list Message) :
  zip_with (fun l msg => l +:+ ": " +:+ content msg +:+ nl)
           (role_label <$> turns) turns
  = map (fun msg => role_label msg +:+ ": " +:+ content msg +:+ nl) turns.
Proof. induction turns as [|m turns IH]; [reflexivity|]. cbn. by f_equal. Qed.

(** Step 3 in closed form: nothing for no history, else the header, one
    line per turn of the window, and a blank line. *)
Lemma format_history_block (h : list Message) :
  format_history (Some h)
  = match h with
    | [] => ""
    | _ => history_block_of (role_label <$> recent_history h) (recent_history h)
    end.
Proof.
  destruct h as [|m h]; [reflexivity|].
  unfold format_history.
  assert (Hne : recent_history (m :: h) <> []).
  { rewrite recent_history_drop. intros Hnil.
    apply (f_equal length) in Hnil. rewrite length_drop in Hnil.
    cbn [length] in Hnil. lia. }
  destruct (recent_history (m :: h)) as [|m' w] eqn:Hw; [done|].
  rewrite fold_history_step. unfold history_block_of.
  by rewrite zip_with_labels, string_app_assoc.
Qed.

(** C2.  The window is the history without its first [len - 6] turns: a
    suffix of the history, in the original order, of at most 6 turns; of 10
    turns exactly the last 6 remain.  The history block renders the window
    and nothing else, and it is the empty string when the history is empty
    or absent. *)
Theorem history_window_last_six :
  (forall h : list Message,
      recent_history h = drop (length h - 6) h
      /\ h = take (length h - 6) h ++ recent_history h
      /\ length (recent_history h) = Nat.min 6 (length h)
      /\ format_history (Some h)
         = match h with
           | [] => ""
           | _ => history_block_of (role_label <$> drop (length h - 6) h)
                                   (drop (length h - 6) h)
           end)
  /\ (forall m1 m2 m3 m4 m5 m6 m7 m8 m9 m10 : Message,
        recent_history [m1; m2; m3; m4; m5; m6; m7; m8; m9; m10]
        = [m5; m6; m7; m8; m9; m10])
  /\ format_history (Some []) = ""
  /\ format_history None = "".
Proof.
  split; [|by repeat split].
  intros h. rewrite format_history_block, !recent_history_drop.
  repeat split.
  - by rewrite take_drop.
  - rewrite length_drop. lia.
Qed.

(** C10.  The label of a message is [User] exactly when its role is the
    string [user], and [Assistant] for every other role; each line of the
    history block is the label of its turn, a colon, and the content. *)
Theorem role_label_user_or_assistant :
  (forall msg : Message,
      (role_label msg = "User" <-> role msg = "user")
      /\ (role_label msg = "Assistant" <-> role msg <> "user"))
  /\ (forall h : list Message,
        format_history (Some h)
        = match h with
          | [] => ""
          | _ => history_block_of (role_label <$> recent_history h)
                                  (recent_history h)
          end)
  /\ role_label {| role := "system"; content := "x" |} = "Assistant".
Proof.
  split; [|split; [exact format_history_block|reflexivity]].
  intros msg. unfold role_label.
  destruct (String.eqb_spec (role msg) "user") as [H|H]; split; split;
    intros; done.
Qed.

(** C8.  The context is the concatenation, in retrieval order, of one block
    per fragment: a marker holding [Document i] for the 1-based position
    [i], then the fragment's text.  With no fragment retrieved it is the
    empty string.  Whatever the retriever returns, [chat] hands the chain a
    request holding exactly this context. *)
Theorem context_blocks_in_retrieval_order :
  (forall docs : list Document,
      format_context docs
      = concat_strings
          (imap (fun k doc =>
                   nl +:+ "--- " +:+ ("Document " +:+ pretty (S k)) +:+ " ---"
                   +:+ nl +:+ page_content doc +:+ nl) docs))
  /\ format_context [] = ""
  /\ (forall (docs : list Document) chain_stream chain_invoke request,
        chat (fun _ => inr docs) chain_stream chain_invoke request
        = let req := {| context := format_context docs;
                        question := message request;
                        conversation_history :=
                          format_history (history request) |} in
          match stream request with
          | Some true => StreamingResponse (events (generate (chain_stream req)))
          | _ =>
              match chain_invoke req with
              | inl e => HTTPException 500 (str_exn e)
              | inr answer =>
                  JsonResponse answer
                    (map (fun doc =>
                            py_str_prefix 200 (page_content doc) +:+ "...")
                         docs)
              end
          end).
Proof.
  split; [|split; [reflexivity|reflexivity]].
  intros docs. rewrite format_context_blocks. reflexivity.
Qed.

End Assembly.

(** ** The index builder: rows, metadata, fragment ids *)

Section Rows.
Import VectorBuilder.

Lemma process_rows_closed_form cc mc (rows : list row) :
  forall i docs sk,
    Forall (fun r : row => is_Some (r !! cc)) rows ->
    process_rows cc mc i rows docs sk
    = inr (docs ++ documents_of cc mc i rows,
           sk + length (List.filter (row_skipped cc) rows)).
Proof.
  induction rows as [|r rows IH]; intros i docs sk Hcols.
  - cbn. by rewrite app_nil_r, Nat.add_0_r.
  - apply Forall_cons in Hcols as [[c Hc] Hcols].
    cbn [process_rows documents_of List.filter]. unfold row_skipped at 1.
    rewrite Hc. destruct (no_content c).
    + rewrite IH by done. cbn [length]. do 2 f_equal. lia.
    + rewrite IH by done. by rewrite <- app_assoc.
Qed.

Lemma process_rows_columns cc mc (rows : list row) :
  forall i docs sk res,
    process_rows cc mc i rows docs sk = inr res ->
    Forall (fun r : row => is_Some (r !! cc)) rows.
Proof.
  induction rows as [|r rows IH]; intros i docs sk res H; [constructor|].
  cbn [process_rows] in H. destruct (r !! cc) as [c|] eqn:Hc; [|discriminate H].
  constructor; [by eexists|].
  destruct (no_content c); eapply IH; exact H.
Qed.

Lemma load_documents_inv cc mc (rows : list row) docs skipped :
  load_documents cc mc rows = inr (docs, skipped) ->
  docs = documents_of cc mc 0 rows
  /\ skipped = length (List.filter (row_skipped cc) rows).
Proof.
  unfold load_documents. intros H.
  pose proof (process_rows_columns _ _ _ _ _ _ _ H) as Hcols.
  rewrite (process_rows_closed_form _ _ _ _ _ _ Hcols) in H.
  by injection H as <- <-.
Qed.

(** What a lookup in the metadata of row [i] gives: the cell of a listed
    column that the row has and that is not missing, as text; failing that,
    the row index under [row_id]. *)
Lemma fold_metadata_step_lookup (r : row) (cols : list string) :
  forall (md : gmap string meta_value) k,
    fold_left (metadata_step r) cols md !! k
    = match (if decide (k ∈ cols) then r !! k else None) with
      | Some c => if isna c then md !! k else Some (MStr (str_cell c))
      | None => md !! k
      end.
Proof.
  induction cols as [|col cols IH]; intros md k.
  - cbn [fold_left]. destruct (decide (k ∈ [])) as [H|_]; [|done].
    by apply elem_of_nil in H.
  - cbn [fold_left]. rewrite IH.
    destruct (decide (k ∈ cols)) as [Hin|Hin].
    + rewrite decide_True by (by right).
      destruct (r !! k) as [c|] eqn:Hk; [destruct (isna c) eqn:Hna|]; try done.
      * unfold metadata_step. destruct (r !! col) as [c'|] eqn:Hc; [|done].
        destruct (isna c') eqn:Hna'; [done|]. cbn [negb].
        destruct (decide (col = k)) as [->|Hne]; [congruence|].
        by rewrite lookup_insert_ne.
      * unfold metadata_step. destruct (r !! col) as [c'|] eqn:Hc; [|done].
        destruct (isna c'); [done|]. cbn [negb].
        destruct (decide (col = k)) as [->|Hne]; [congruence|].
        by rewrite lookup_insert_ne.
    + destruct (decide (col = k)) as [->|Hne].
      * rewrite decide_True by left. unfold metadata_step.
        destruct (r !! k) as [c|]; [|done].
        destruct (isna c); [done|]. cbn [negb]. by rewrite lookup_insert_eq.
      * rewrite decide_False by (intros [?|?]%elem_of_cons; congruence).
        unfold metadata_step. destruct (r !! col) as [c'|]; [|done].
        destruct (isna c'); [done|]. cbn [negb]. by rewrite lookup_insert_ne.
Qed.

Lemma build_metadata_lookup i mc (r : row) k :
  build_metadata i mc r !! k
  = match (if decide (k ∈ default [] mc) then r !! k else None) with
    | Some c =>
        if isna c
        then (if decide (k = "row_id") then Some (MInt (Z.of_nat i)) else None)
        else Some (MStr (str_cell c))
    | None => if decide (k = "row_id") then Some (MInt (Z.of_nat i)) else None
    end.
Proof.
  assert (Hbase : forall k,
    ({[ "row_id" := MInt (Z.of_nat i) ]} : gmap string meta_value) !! k
    = if decide (k = "row_id") then Some (MInt (Z.of_nat i)) else None).
  { intros k'. destruct (decide (k' = "row_id")) as [->|Hne].
    - by rewrite lookup_singleton_eq.
    - by rewrite lookup_singleton_ne. }
  unfold build_metadata. destruct mc as [[|col cols]|]; cbn [default].
  - rewrite decide_False by apply not_elem_of_nil. apply Hbase.
  - by rewrite fold_metadata_step_lookup, Hbase.
  - rewrite decide_False by apply not_elem_of_nil. apply Hbase.
Qed.

Lemma documents_of_metadata cc mc (rows : list row) :
  forall i doc,
    doc ∈ documents_of cc mc i rows ->
    exists j (r : row), rows !! j = Some r
                        /\ metadata doc = build_metadata (i + j) mc r.
Proof.
  induction rows as [|r rows IH]; intros i doc Hin.
  - by apply elem_of_nil in Hin.
  - cbn [documents_of] in Hin.
    assert (Htail : doc ∈ documents_of cc mc (S i) rows ->
      exists j (r' : row), (r :: rows) !! j = Some r'
                           /\ metadata doc = build_metadata (i + j) mc r').
    { intros (j & r' & Hj & Hmd)%IH. exists (S j), r'. split; [done|].
      rewrite Hmd. f_equal. lia. }
    destruct (r !! cc) as [c|]; [|by apply Htail].
    destruct (no_content c); [by apply Htail|].
    apply elem_of_cons in Hin as [->|Hin]; [|by apply Htail].
    exists 0, r. split; [done|]. cbn [metadata]. f_equal. lia.
Qed.

(** The documents of a frame follow its rows with content: the indices of
    those rows, in growing order, pair off with the documents, each document
    being made of the row at its index. *)
Lemma documents_of_indices cc mc (rows : list row) :
  forall i,
    exists js : list nat,
      StronglySorted lt js
      /\ (forall j,
            j ∈ js <->
            exists k (r : row) (c : cell),
              j = i + k /\ rows !! k = Some r /\ r !! cc = Some c
              /\ no_content c = false)
      /\ Forall2
           (fun doc j =>
              exists k (r : row) (c : cell),
                j = i + k /\ rows !! k = Some r /\ r !! cc = Some c
                /\ doc = {| page_content := str_cell c;
                            metadata := build_metadata j mc r |})
           (documents_of cc mc i rows) js.
Proof.
  induction rows as [|r rows IH]; intros i.
  - exists []. split; [constructor|]. split; [|constructor].
    intros j. split; [by intros ?%elem_of_nil|]. by intros (k & r & c & _ & ? & _).
  - destruct (IH (S i)) as (js & Hsorted & Hmem & Hdocs).
    assert (Hshift : forall j,
              (exists k (r' : row) (c : cell),
                  j = S i + k /\ rows !! k = Some r' /\ r' !! cc = Some c
                  /\ no_content c = false)
              <-> (exists k (r' : row) (c : cell),
                     j = i + k /\ 0 < k /\ (r :: rows) !! k = Some r'
                     /\ r' !! cc = Some c /\ no_content c = false)).
    { intros j. split.
      - intros (k & r' & c & -> & Hk & Hc & Hn). exists (S k), r', c.
        repeat split; first [done|lia].
      - intros (k & r' & c & -> & Hpos & Hk & Hc & Hn).
        destruct k as [|k]; [lia|]. exists k, r', c.
        repeat split; first [done|lia]. }
    assert (Htail : Forall2
              (fun doc j =>
                 exists k (r' : row) (c : cell),
                   j = i + k /\ (r :: rows) !! k = Some r' /\ r' !! cc = Some c
                   /\ doc = {| page_content := str_cell c;
                               metadata := build_metadata j mc r' |})
              (documents_of cc mc (S i) rows) js).
    { eapply Forall2_impl; [exact Hdocs|].
      intros doc j (k & r' & c & -> & Hk & Hc & ->). exists (S k), r', c.
      repeat split; first [done|lia]. }
    assert (Hgt : Forall (lt i) js).
    { apply Forall_forall. intros j Hj. apply Hmem in Hj as (k & _ & _ & -> & _).
      lia. }
    cbn [documents_of].
    destruct (r !! cc) as [c|] eqn:Hc; [destruct (no_content c) eqn:Hn|].
    + exists js. split; [done|]. split; [|done]. intros j.
      rewrite Hmem, Hshift. split.
      * intros (k & r' & c' & -> & _ & Hrest). by exists k, r', c'.
      * intros (k & r' & c' & -> & Hk & Hc' & Hn').
        destruct k as [|k]; [|exists (S k), r', c'; repeat split; first [done|lia]].
        cbn in Hk. injection Hk as <-. congruence.
    + exists (i :: js). split; [by constructor|]. split.
      * intros j. rewrite elem_of_cons, Hmem, Hshift. split.
        -- intros [->|(k & r' & c' & -> & _ & Hrest)].
           ++ exists 0, r, c. repeat split; first [done|lia].
           ++ by exists k, r', c'.
        -- intros (k & r' & c' & -> & Hk & Hc' & Hn').
           destruct k as [|k]; [left; lia|]. right.
           exists (S k), r', c'. repeat split; first [done|lia].
      * constructor; [|done]. exists 0, r, c. repeat split; first [done|lia].
    + exists js. split; [done|]. split; [|done]. intros j.
      rewrite Hmem, Hshift. split.
      * intros (k & r' & c' & -> & _ & Hrest). by exists k, r', c'.
      * intros (k & r' & c' & -> & Hk & Hc' & Hn').
        destruct k as [|k]; [|exists (S k), r', c'; repeat split; first [done|lia]].
        cbn in Hk. injection Hk as <-. congruence.
Qed.

Lemma load_documents_indices cc mc (rows : list row) docs skipped :
  load_documents cc mc rows = inr (docs, skipped) ->
  exists js : list nat,
    StronglySorted lt js
    /\ (forall j,
          j ∈ js <->
          exists (r : row) (c : cell),
            rows !! j = Some r /\ r !! cc = Some c /\ no_content c = false)
    /\ Forall2
         (fun doc j =>
            exists (r : row) (c : cell),
              rows !! j = Some r /\ r !! cc = Some c
              /\ doc = {| page_content := str_cell c;
                          metadata := build_metadata j mc r |})
         docs js.
Proof.
  intros [-> _]%load_documents_inv.
  destruct (documents_of_indices cc mc rows 0) as (js & Hsorted & Hmem & Hdocs).
  exists js. split; [done|]. split.
  - intros j. rewrite Hmem. split.
    + intros (k & r & c & -> & Hrest). by exists r, c.
    + intros (r & c & Hrest). by exists j, r, c.
  - eapply Forall2_impl; [exact Hdocs|].
    intros doc j (k & r & c & -> & Hrest). by exists r, c.
Qed.

End Rows.

Section Metadata.
Import VectorBuilder.

(** C9, as the claim states it, fails: the document made of a one-column row
    with content [x] holds the integer 0 under [row_id]. *)
Lemma row_id_is_not_a_string :
  exists doc,
    load_documents "content" None [content_row "x"] = inr ([doc], 0)
    /\ metadata doc !! "row_id" = Some (MInt 0)
    /\ ~ (exists s, MInt 0 = MStr s).
Proof.
  eexists. split; [reflexivity|]. split; [reflexivity|].
  intros [s Hs]. discriminate Hs.
Qed.

(** C9, amended.  The documents pair off, in order, with the rows of the
    frame whose content is neither missing nor blank.  In the metadata of a
    document, a value is the text of a cell that its own row has in one of
    the listed metadata columns; the only other entry is the key [row_id]
    the builder adds itself, which holds the integer index of the
    document's own row, and is there whenever no listed column is named
    [row_id]. *)
Theorem metadata_values_string_or_row_id
    (content_column : string) (metadata_columns : option (list string))
    (rows : list row) (docs : list Document) (skipped : nat) :
  load_documents content_column metadata_columns rows = inr (docs, skipped) ->
  exists js : list nat,
    StronglySorted lt js
    /\ (forall j,
          j ∈ js <->
          exists (r : row) (c : cell),
            rows !! j = Some r /\ r !! content_column = Some c
            /\ no_content c = false)
    /\ Forall2
         (fun doc j =>
            exists (r : row) (c : cell),
              rows !! j = Some r
              /\ r !! content_column = Some c
              /\ page_content doc = str_cell c
              /\ (forall k v,
                    metadata doc !! k = Some v ->
                    (k ∈ default [] metadata_columns
                     /\ exists c', r !! k = Some c' /\ isna c' = false
                                   /\ v = MStr (str_cell c'))
                    \/ (k = "row_id" /\ v = MInt (Z.of_nat j)))
              /\ ("row_id" ∉ default [] metadata_columns ->
                  metadata doc !! "row_id" = Some (MInt (Z.of_nat j))))
         docs js.
Proof.
  intros (js & Hsorted & Hmem & Hdocs)%load_documents_indices.
  exists js. split; [done|]. split; [done|].
  eapply Forall2_impl; [exact Hdocs|].
  intros doc j (r & c & Hr & Hc & ->). exists r, c.
  split; [done|]. split; [done|]. split; [done|]. cbn [metadata]. split.
  - intros k v Hk. rewrite build_metadata_lookup in Hk.
    assert (Hrow : (if decide (k = "row_id")
                    then Some (MInt (Z.of_nat j)) else None) = Some v ->
                   k = "row_id" /\ v = MInt (Z.of_nat j)).
    { intros H. destruct (decide (k = "row_id")) as [->|]; [|discriminate H].
      by injection H as <-. }
    destruct (decide (k ∈ default [] metadata_columns)) as [Hin|Hin].
    + destruct (r !! k) as [c'|] eqn:Hc'.
      * destruct (isna c') eqn:Hna.
        -- right. by apply Hrow.
        -- left. injection Hk as <-. split; [done|]. by exists c'.
      * right. by apply Hrow.
    + right. by apply Hrow.
  - intros Hcol. rewrite build_metadata_lookup.
    rewrite decide_False by done. by rewrite decide_True.
Qed.

Lemma metadata_values_string_or_row_id_witness :
  exists js : list nat,
    StronglySorted lt js
    /\ (forall j,
          j ∈ js <->
          exists (r : row) (c : cell),
            [content_row "  "; <["source" := Text "faq"]> (content_row "x")]
              !! j = Some r
            /\ r !! "content" = Some c
            /\ no_content c = false)
    /\ Forall2
         (fun doc j =>
            exists (r : row) (c : cell),
              [content_row "  "; <["source" := Text "faq"]> (content_row "x")]
                !! j = Some r
              /\ r !! "content" = Some c
              /\ page_content doc = str_cell c
              /\ (forall k v,
                    metadata doc !! k = Some v ->
                    (k ∈ default [] (Some ["source"])
                     /\ exists c', r !! k = Some c' /\ isna c' = false
                                   /\ v = MStr (str_cell c'))
                    \/ (k = "row_id" /\ v = MInt (Z.of_nat j)))
              /\ ("row_id" ∉ default [] (Some ["source"]) ->
                  metadata doc !! "row_id" = Some (MInt (Z.of_nat j))))
         [ {| page_content := "x";
              metadata := <["source" := MStr "faq"]>
                            {[ "row_id" := MInt 1 ]} |} ]
         js.
Proof.
  apply (metadata_values_string_or_row_id "content" (Some ["source"])
           [content_row "  "; <["source" := Text "faq"]> (content_row "x")]
           [ {| page_content := "x";
                metadata := <["source" := MStr "faq"]>
                              {[ "row_id" := MInt 1 ]} |} ]
           1).
  vm_compute. reflexivity.
Defined.

End Metadata.

(** ** Fragment ids and the index *)

Section Index.
Import VectorBuilder.

Variable vector : Type.
Variable embed : string -> result vector.
Variable split_text : nat -> nat -> string -> list string.

Lemma length_make_ids n : length (make_ids n) = n.
Proof. unfold make_ids. by rewrite length_map, length_seq. Qed.

Lemma make_ids_lookup n g :
  g < n -> make_ids n !! g = Some ("doc_" +:+ pretty g).
Proof.
  intros Hg. unfold make_ids.
  change (map ?f ?l) with (f <$> l).
  by rewrite list_lookup_fmap, lookup_seq_lt.
Qed.

Lemma make_ids_NoDup n : NoDup (make_ids n).
Proof.
  unfold make_ids. change (map ?f ?l) with (f <$> l).
  apply NoDup_fmap_2; [|apply NoDup_seq].
  intros i j Hij. apply (inj (String.app "doc_")) in Hij.
  by apply (inj pretty) in Hij.
Qed.

Lemma split_documents_app cs co (ds1 ds2 : list Document) :
  split_documents split_text cs co (ds1 ++ ds2)
  = split_documents split_text cs co ds1 ++ split_documents split_text cs co ds2.
Proof. unfold split_documents. apply flat_map_app. Qed.

(** Where the [j]-th piece of a document lands in the flattened list: after
    all the pieces of the documents before it. *)
Lemma split_documents_lookup cs co (before : list Document) d after j chunk :
  split_text cs co (page_content d) !! j = Some chunk ->
  split_documents split_text cs co (before ++ d :: after)
    !! (length (split_documents split_text cs co before) + j)
  = Some {| page_content := chunk; metadata := metadata d |}.
Proof.
  intros Hj. rewrite split_documents_app, lookup_app_r by lia.
  replace (_ + j - _) with j by lia.
  unfold split_documents at 1. cbn [flat_map].
  rewrite lookup_app_l.
  - change (map ?f ?l) with (f <$> l). by rewrite list_lookup_fmap, Hj.
  - rewrite length_map. by eapply lookup_lt_Some.
Qed.

Lemma embed_documents_length (texts : list string) vs :
  embed_documents vector embed texts = inr vs -> length vs = length texts.
Proof.
  revert vs. induction texts as [|t texts IH]; intros vs H.
  - by injection H as <-.
  - cbn [embed_documents] in H. unfold bind in H.
    destruct (embed t) as [e|v]; [discriminate H|].
    destruct (embed_documents vector embed texts) as [e|vs']; [discriminate H|].
    injection H as <-. cbn [length]. f_equal. by apply IH.
Qed.

Lemma embed_documents_raises (texts : list string) t e :
  t ∈ texts -> embed t = inl e ->
  exists e', embed_documents vector embed texts = inl e'.
Proof.
  intros Hin He. induction texts as [|t' texts IH].
  - by apply elem_of_nil in Hin.
  - cbn [embed_documents]. unfold bind.
    destruct (embed t') as [e'|v] eqn:Ht'; [by eexists|].
    apply elem_of_cons in Hin as [->|Hin]; [congruence|].
    destruct (IH Hin) as [e' ->]. by eexists.
Qed.

Lemma embed_documents_total (texts : list string) :
  Forall (fun t => exists v, embed t = inr v) texts ->
  exists vs, embed_documents vector embed texts = inr vs.
Proof.
  induction 1 as [|t texts [v Hv] _ [vs IH]]; [by eexists|].
  cbn [embed_documents]. unfold bind. rewrite Hv, IH. by eexists.
Qed.

(** Upserting a batch is a left-biased union with the batch read backwards:
    a later item for an id wins over an earlier one. *)
Lemma fold_upsert_union (items : list (string * Document * vector)) :
  forall index : gmap string (entry vector),
    fold_left (upsert_step vector) items index
    = list_to_map (reverse (item_binding vector <$> items)) ∪ index.
Proof.
  induction items as [|[[id doc] v] items IH]; intros index.
  - cbn. by rewrite (left_id_L ∅ (∪)).
  - cbn [fold_left]. rewrite IH. rewrite fmap_cons, reverse_cons.
    rewrite list_to_map_app. cbn [item_binding fst snd upsert_step].
    unfold upsert. cbn [list_to_map foldr uncurry fst snd].
    rewrite insert_empty, <- (assoc_L (∪)).
    by rewrite <- insert_union_singleton_l.
Qed.

Lemma fold_upsert_idempotent (items : list (string * Document * vector))
    (index : gmap string (entry vector)) :
  fold_left (upsert_step vector) items
    (fold_left (upsert_step vector) items index)
  = fold_left (upsert_step vector) items index.
Proof.
  rewrite !fold_upsert_union, (assoc_L (∪)). f_equal.
  apply (idemp_L (∪)).
Qed.

Lemma fold_upsert_dom (items : list (string * Document * vector))
    (index : gmap string (entry vector)) :
  dom (fold_left (upsert_step vector) items index)
  = dom index ∪ list_to_set (fst <$> (fst <$> items)).
Proof.
  rewrite fold_upsert_union, dom_union_L, dom_list_to_map_L.
  rewrite (comm_L (∪)). f_equal. apply set_eq. intros k.
  rewrite !elem_of_list_to_set, fmap_reverse, elem_of_reverse.
  by rewrite <- !list_fmap_compose.
Qed.

Lemma fold_upsert_lookup (items : list (string * Document * vector))
    (index : gmap string (entry vector)) g id doc v :
  NoDup (fst <$> (fst <$> items)) ->
  items !! g = Some (id, doc, v) ->
  fold_left (upsert_step vector) items index !! id
  = Some {| entry_embedding := v;
            entry_text := page_content doc;
            entry_metadata := metadata doc |}.
Proof.
  intros Hnd Hg. rewrite fold_upsert_union. apply lookup_union_Some_l.
  apply elem_of_list_to_map_1.
  - rewrite fmap_reverse, reverse_Permutation.
    rewrite <- list_fmap_compose.
    by rewrite <- (list_fmap_compose fst fst) in Hnd.
  - apply elem_of_reverse, list_elem_of_fmap.
    exists (id, doc, v). split; [done|]. by eapply list_elem_of_lookup_2.
Qed.

(** [build_vector_db] returns exactly when the rows load, every fragment
    embeds and the test query embeds; the index it returns is the batch of
    upserts applied to the index it started from. *)
Lemma build_vector_db_inv index rows cc mc cs co index' rep :
  build_vector_db vector embed split_text index rows cc mc cs co
  = inr (index', rep) ->
  exists docs skipped vs,
    let frags := split_documents split_text cs co docs in
    load_documents cc mc rows = inr (docs, skipped)
    /\ embed_documents vector embed (map page_content frags) = inr vs
    /\ (exists v, embed "test query" = inr v)
    /\ index' = fold_left (upsert_step vector)
                  (zip (zip (make_ids (length frags)) frags) vs) index
    /\ rep = {| documents_processed := length docs;
                fragments_created := length frags;
                documents_skipped := skipped |}.
Proof.
  unfold build_vector_db, from_documents, similarity_search, bind, ret.
  intros H.
  destruct (text_splitter_init cs co) as [e|[]]; [discriminate H|].
  destruct (load_documents cc mc rows) as [e|[docs skipped]]; [discriminate H|].
  destruct (embed_documents _ _ _) as [e|vs] eqn:Hvs; [discriminate H|].
  destruct (embed "test query") as [e|v] eqn:Hq; [discriminate H|].
  injection H as <- <-. exists docs, skipped, vs. cbn zeta.
  repeat split; try done. by exists v.
Qed.

Lemma text_splitter_init_ok cs co :
  text_splitter_init cs co = inr tt <-> 0 < cs /\ co <= cs.
Proof.
  unfold text_splitter_init.
  destruct (Nat.eqb_spec cs 0) as [->|Hcs]; [split; [done|lia]|].
  destruct (Nat.ltb_spec cs co) as [Hco|Hco]; [split; [done|lia]|].
  split; [lia|done].
Qed.

Lemma build_vector_db_sizes index rows cc mc cs co index' rep :
  build_vector_db vector embed split_text index rows cc mc cs co
  = inr (index', rep) ->
  0 < cs /\ co <= cs.
Proof.
  unfold build_vector_db, bind. intros H. apply text_splitter_init_ok.
  destruct (text_splitter_init cs co) as [e|[]]; [discriminate H|done].
Qed.

Lemma build_vector_db_returns index rows cc mc cs co docs skipped vs v :
  0 < cs -> co <= cs ->
  load_documents cc mc rows = inr (docs, skipped) ->
  embed_documents vector embed
    (map page_content (split_documents split_text cs co docs)) = inr vs ->
  embed "test query" = inr v ->
  build_vector_db vector embed split_text index rows cc mc cs co
  = inr (fold_left (upsert_step vector)
           (zip (zip (make_ids (length (split_documents split_text cs co docs)))
                     (split_documents split_text cs co docs)) vs) index,
         {| documents_processed := length docs;
            fragments_created := length (split_documents split_text cs co docs);
            documents_skipped := skipped |}).
Proof.
  intros Hcs Hco Hload Hvs Hq.
  unfold build_vector_db, from_documents, similarity_search, bind, ret.
  rewrite (proj2 (text_splitter_init_ok cs co) (conj Hcs Hco)).
  by rewrite Hload, Hvs, Hq.
Qed.

(** The build does return when every row has the content column and the
    embedding function succeeds on every fragment and on the test query. *)
Lemma build_vector_db_total index rows cc mc cs co :
  0 < cs -> co <= cs ->
  Forall (fun r : row => is_Some (r !! cc)) rows ->
  Forall (fun frag => exists v, embed (page_content frag) = inr v)
         (split_documents split_text cs co (documents_of cc mc 0 rows)) ->
  (exists v, embed "test query" = inr v) ->
  exists index',
    build_vector_db vector embed split_text index rows cc mc cs co
    = inr (index',
           {| documents_processed := length (documents_of cc mc 0 rows);
              fragments_created :=
                length (split_documents split_text cs co
                          (documents_of cc mc 0 rows));
              documents_skipped :=
                length (List.filter (row_skipped cc) rows) |}).
Proof.
  intros Hcs Hco Hcols Hfrags [v Hq].
  destruct (embed_documents_total
              (map page_content
                 (split_documents split_text cs co (documents_of cc mc 0 rows))))
    as [vs Hvs].
  { change (map ?f ?l) with (f <$> l). by apply Forall_fmap. }
  eexists. eapply build_vector_db_returns; [done|done| |exact Hvs|exact Hq].
  unfold load_documents. by rewrite process_rows_closed_form.
Qed.

Lemma batch_keys (frags : list Document) (vs : list vector) :
  length vs = length frags ->
  fst <$> (fst <$> zip (zip (make_ids (length frags)) frags) vs)
  = make_ids (length frags).
Proof.
  intros Hlen. rewrite fst_zip.
  - apply fst_zip. by rewrite length_make_ids.
  - rewrite length_zip, length_make_ids. lia.
Qed.

(** C3, amended.  The id of a fragment is [doc_<g>], where [g] is its
    0-based position among all fragments of the run: the number of
    fragments the documents before its own produced, plus its position in
    its own document.  The ids of a run are pairwise distinct, and when the
    build returns, the index holds the fragment's text and its document's
    metadata under that id. *)
Theorem fragment_id_is_global_position
    (cs co : nat) (before : list Document) (d : Document)
    (after : list Document) (j : nat) (chunk : string) :
  split_text cs co (page_content d) !! j = Some chunk ->
  let frags := split_documents split_text cs co (before ++ d :: after) in
  let g := length (split_documents split_text cs co before) + j in
  zip (make_ids (length frags)) frags !! g
  = Some ("doc_" +:+ pretty g,
          {| page_content := chunk; metadata := metadata d |})
  /\ NoDup (make_ids (length frags))
  /\ (forall index rows cc mc skipped index' rep,
        load_documents cc mc rows = inr (before ++ d :: after, skipped) ->
        build_vector_db vector embed split_text index rows cc mc cs co
        = inr (index', rep) ->
        exists v,
          index' !! ("doc_" +:+ pretty g)
          = Some {| entry_embedding := v;
                    entry_text := chunk;
                    entry_metadata := metadata d |}).
Proof.
  intros Hj frags g.
  pose proof (split_documents_lookup _ _ before _ after _ _ Hj) as Hfrag.
  fold frags g in Hfrag.
  assert (Hg : g < length frags) by (by eapply lookup_lt_Some).
  assert (Hzip : zip (make_ids (length frags)) frags !! g
                 = Some ("doc_" +:+ pretty g,
                         {| page_content := chunk; metadata := metadata d |})).
  { apply lookup_zip_with_Some. do 2 eexists. split; [done|].
    split; [by apply make_ids_lookup|done]. }
  split; [done|]. split; [apply make_ids_NoDup|].
  intros index rows cc mc skipped index' rep Hload Hbuild.
  apply build_vector_db_inv in Hbuild
    as (docs & sk & vs & Hload' & Hvs & _ & -> & _).
  rewrite Hload in Hload'. injection Hload' as <- <-.
  fold frags in Hvs |- *.
  apply embed_documents_length in Hvs. rewrite length_map in Hvs.
  destruct (lookup_lt_is_Some_2 vs g) as [v Hv]; [lia|].
  exists v.
  apply (fold_upsert_lookup _ index g
           ("doc_" +:+ pretty g)
           {| page_content := chunk; metadata := metadata d |} v).
  - rewrite batch_keys by done. apply make_ids_NoDup.
  - apply lookup_zip_with_Some. do 2 eexists. split; [done|]. by split.
Qed.

Lemma first_embedding_failure (frags : list Document) frag e :
  frag ∈ frags ->
  embed (page_content frag) = inl e ->
  exists before failing after e',
    frags = before ++ failing :: after
    /\ Forall (fun d => exists v, embed (page_content d) = inr v) before
    /\ embed (page_content failing) = inl e'.
Proof.
  intros Hin He. induction frags as [|d frags IH].
  - by apply elem_of_nil in Hin.
  - destruct (embed (page_content d)) as [e'|v] eqn:Hd.
    + exists [], d, frags, e'. by repeat split.
    + apply elem_of_cons in Hin as [->|Hin]; [congruence|].
      destruct (IH Hin) as (before & failing & after & e' & -> & Hok & Hf).
      exists (d :: before), failing, after, e'. split; [done|].
      split; [|done]. constructor; [by exists v|done].
Qed.

Lemma embed_documents_first_error (before : list Document) failing after e :
  Forall (fun d => exists v, embed (page_content d) = inr v) before ->
  embed (page_content failing) = inl e ->
  embed_documents vector embed (map page_content (before ++ failing :: after))
  = inl e.
Proof.
  intros Hok Hf. induction Hok as [|d before [v Hv] _ IH].
  - cbn [app map embed_documents]. unfold bind. by rewrite Hf.
  - cbn [app map embed_documents]. unfold bind. by rewrite Hv, IH.
Qed.

(** C4, amended.  An embedding error on any fragment is not caught.  When
    the sizes pass the splitter's checks, the rows load and the embedding of
    some fragment fails, the build raises, whatever the other rows are, and
    produces no report: what it raises is the very error the embedding
    function gave for the first fragment, in order, on which it fails.  The
    count of skipped rows holds the rows with missing or blank content and
    no others. *)
Theorem embedding_error_aborts_build
    (index : gmap string (entry vector)) (rows : list row)
    (cc : string) (mc : option (list string)) (cs co : nat)
    (docs : list Document) (skipped : nat) (frag : Document) (e : exn) :
  0 < cs ->
  co <= cs ->
  load_documents cc mc rows = inr (docs, skipped) ->
  frag ∈ split_documents split_text cs co docs ->
  embed (page_content frag) = inl e ->
  (exists before failing after e',
      split_documents split_text cs co docs = before ++ failing :: after
      /\ Forall (fun d => exists v, embed (page_content d) = inr v) before
      /\ embed (page_content failing) = inl e'
      /\ build_vector_db vector embed split_text index rows cc mc cs co
         = inl e')
  /\ skipped = length (List.filter (row_skipped cc) rows).
Proof.
  intros Hcs Hco Hload Hfrag He. split.
  - destruct (first_embedding_failure _ _ _ Hfrag He)
      as (before & failing & after & e' & Hsplit & Hok & Hf).
    exists before, failing, after, e'. repeat split; try done.
    unfold build_vector_db, from_documents, bind.
    rewrite (proj2 (text_splitter_init_ok cs co) (conj Hcs Hco)), Hload.
    cbn zeta. rewrite Hsplit.
    by rewrite (embed_documents_first_error _ _ _ _ Hok Hf).
  - by apply load_documents_inv in Hload as [_ ->].
Qed.

(** C7.  When a build has returned, running it again on the same input
    against the index it left returns the same index and the same report:
    every id is overwritten with the entry it already held.  The ids in the
    index are those it held before the first run and the ids of the
    fragments, once each. *)
Theorem rebuild_leaves_index_unchanged
    (index : gmap string (entry vector)) (rows : list row)
    (cc : string) (mc : option (list string)) (cs co : nat)
    (index' : gmap string (entry vector)) (rep : report) :
  build_vector_db vector embed split_text index rows cc mc cs co
  = inr (index', rep) ->
  build_vector_db vector embed split_text index' rows cc mc cs co
  = inr (index', rep)
  /\ dom index' = dom index ∪ list_to_set (make_ids (fragments_created rep)).
Proof.
  intros Hbuild. destruct (build_vector_db_sizes _ _ _ _ _ _ _ _ Hbuild)
    as [Hcs Hco].
  apply build_vector_db_inv in Hbuild
    as (docs & sk & vs & Hload & Hvs & [v Hq] & -> & ->).
  cbn zeta in *. split.
  - rewrite (build_vector_db_returns _ _ _ _ _ _ _ _ _ _ Hcs Hco Hload Hvs Hq).
    by rewrite fold_upsert_idempotent.
  - rewrite fold_upsert_dom. cbn [fragments_created].
    rewrite batch_keys; [done|].
    apply embed_documents_length in Hvs. by rewrite length_map in Hvs.
Qed.

End Index.

(** ** The builder on concrete inputs *)

Section Runs.
Import VectorBuilder.

(** C3, as the claim states it, fails.  With windows of 2 characters, the
    row with index 1 and content [z] has a single fragment.  After a first
    row [ab] it is stored under [doc_1]; after a first row [abcd], which
    makes two fragments, it is stored under [doc_2], and [doc_1] holds the
    second fragment of row 0. *)
Lemma fragment_id_depends_on_other_documents :
  stored_fragment "doc_1"
    (build_vector_db nat length_embed window_split ∅
       [content_row "ab"; content_row "z"] "content" None 2 0)
  = Some ("z", Some (MInt 1))
  /\ stored_fragment "doc_2"
       (build_vector_db nat length_embed window_split ∅
          [content_row "abcd"; content_row "z"] "content" None 2 0)
     = Some ("z", Some (MInt 1))
  /\ stored_fragment "doc_1"
       (build_vector_db nat length_embed window_split ∅
          [content_row "abcd"; content_row "z"] "content" None 2 0)
     = Some ("cd", Some (MInt 0)).
Proof. repeat split; vm_compute; reflexivity. Qed.

Lemma fragment_id_is_global_position_witness :
  window_split 2 0 "z" !! 0 = Some "z"
  /\ zip (make_ids 3)
         (split_documents window_split 2 0
            [ {| page_content := "abcd"; metadata := {[ "row_id" := MInt 0 ]} |};
              {| page_content := "z"; metadata := {[ "row_id" := MInt 1 ]} |} ])
       !! 2
     = Some ("doc_2",
             {| page_content := "z"; metadata := {[ "row_id" := MInt 1 ]} |}).
Proof.
  split; [reflexivity|].
  exact (proj1
           (fragment_id_is_global_position nat length_embed window_split 2 0
              [ {| page_content := "abcd";
                   metadata := {[ "row_id" := MInt 0 ]} |} ]
              {| page_content := "z"; metadata := {[ "row_id" := MInt 1 ]} |}
              [] 0 "z" eq_refl)).
Defined.

(** C4, as the claim states it, fails: when the embedding of the second of
    three rows raises, the build raises the same error; it returns no
    index and no report. *)
Lemma embedding_error_is_not_skipped :
  build_vector_db nat length_embed window_split ∅
    [content_row "good"; content_row "bad"; content_row "fine"]
    "content" None 1000 100
  = inl (Exception "EmbeddingUnavailable")
  /\ (forall index rep,
        build_vector_db nat length_embed window_split ∅
          [content_row "good"; content_row "bad"; content_row "fine"]
          "content" None 1000 100
        <> inr (index, rep)).
Proof.
  assert (H : build_vector_db nat length_embed window_split ∅
                [content_row "good"; content_row "bad"; content_row "fine"]
                "content" None 1000 100
              = inl (Exception "EmbeddingUnavailable"))
    by (vm_compute; reflexivity).
  split; [exact H|]. intros index rep. rewrite H. discriminate.
Qed.

Lemma embedding_error_aborts_build_witness :
  (exists before failing after e',
      split_documents window_split 1000 100
        [ {| page_content := "good"; metadata := {[ "row_id" := MInt 0 ]} |};
          {| page_content := "bad"; metadata := {[ "row_id" := MInt 2 ]} |} ]
      = before ++ failing :: after
      /\ Forall (fun d => exists v, length_embed (page_content d) = inr v)
                before
      /\ length_embed (page_content failing) = inl e'
      /\ build_vector_db nat length_embed window_split ∅
           [content_row "good"; content_row "  "; content_row "bad"]
           "content" None 1000 100
         = inl e')
  /\ 1 = length (List.filter (row_skipped "content")
                   [content_row "good"; content_row "  "; content_row "bad"]).
Proof.
  apply (embedding_error_aborts_build nat length_embed window_split ∅
           [content_row "good"; content_row "  "; content_row "bad"]
           "content" None 1000 100
           [ {| page_content := "good"; metadata := {[ "row_id" := MInt 0 ]} |};
             {| page_content := "bad"; metadata := {[ "row_id" := MInt 2 ]} |} ]
           1
           {| page_content := "bad"; metadata := {[ "row_id" := MInt 2 ]} |}
           (Exception "EmbeddingUnavailable")).
  - lia.
  - lia.
  - vm_compute. reflexivity.
  - vm_compute. right. left.
  - vm_compute. reflexivity.
Defined.

Lemma rebuild_leaves_index_unchanged_witness :
  exists index' rep,
    build_vector_db nat length_embed window_split ∅
      [content_row "abcd"; content_row "z"] "content" None 2 0
    = inr (index', rep)
    /\ build_vector_db nat length_embed window_split index'
         [content_row "abcd"; content_row "z"] "content" None 2 0
       = inr (index', rep)
    /\ dom index' = dom (∅ : gmap string (entry nat))
                    ∪ list_to_set (make_ids (fragments_created rep)).
Proof.
  eexists
    (<["doc_2" := {| entry_embedding := 1; entry_text := "z";
                     entry_metadata := {[ "row_id" := MInt 1 ]} |}]>
       (<["doc_1" := {| entry_embedding := 2; entry_text := "cd";
                        entry_metadata := {[ "row_id" := MInt 0 ]} |}]>
          (<["doc_0" := {| entry_embedding := 2; entry_text := "ab";
                           entry_metadata := {[ "row_id" := MInt 0 ]} |}]> ∅))),
    {| documents_processed := 2; fragments_created := 3;
       documents_skipped := 0 |}.
  assert (H : build_vector_db nat length_embed window_split ∅
                [content_row "abcd"; content_row "z"] "content" None 2 0
              = inr (<["doc_2" := {| entry_embedding := 1; entry_text := "z";
                                     entry_metadata := {[ "row_id" := MInt 1 ]} |}]>
                       (<["doc_1" := {| entry_embedding := 2; entry_text := "cd";
                                        entry_metadata := {[ "row_id" := MInt 0 ]} |}]>
                          (<["doc_0" := {| entry_embedding := 2; entry_text := "ab";
                                           entry_metadata := {[ "row_id" := MInt 0 ]} |}]> ∅)),
                     {| documents_processed := 2; fragments_created := 3;
                        documents_skipped := 0 |}))
    by (vm_compute; reflexivity).
  split; [exact H|].
  exact (rebuild_leaves_index_unchanged nat length_embed window_split
           _ _ _ _ _ _ _ _ H).
Defined.

End Runs.

(** * Further properties of [rag_api.py] *)

Section StreamShape.
Import RagApi.

(** Every token stream is a run of tokens that either ends or is cut by a
    first exception, and [generate] answers accordingly. *)
Lemma generate_shape (tokens : list outcome) :
  exists toks : list string,
    pulled (generate tokens) = S (length toks)
    /\ ((tokens = Yield <$> toks
         /\ events (generate tokens) = (content_event <$> toks) ++ [Done]
         /\ unread (generate tokens) = [])
        \/ (exists e,
              tokens = (Yield <$> toks) ++ Raise e :: unread (generate tokens)
              /\ events (generate tokens)
                 = (content_event <$> toks) ++ [error_event e])).
Proof.
  induction tokens as [|[chunk|e] rest IH].
  - exists []. split; [reflexivity|]. left. by repeat split.
  - destruct IH as (toks & Hp & Hshape). exists (chunk :: toks).
    cbn [generate pulled events unread length]. split; [by rewrite Hp|].
    destruct Hshape as [(-> & He & Hu)|(e & Ht & He)].
    + left. rewrite He, Hu. by repeat split.
    + right. exists e. rewrite He. split; [|done].
      cbn [fmap list_fmap app]. f_equal. exact Ht.
  - exists []. split; [reflexivity|]. right. exists e. by split.
Qed.

(** X1.  Whatever the token stream does, the events of [generate] are
    content events followed by exactly one closing event, the success marker
    or an error event; there is one event per [next()] call; the marker is
    sent only when the whole stream was read, and after an error the stream
    is left exactly where the exception came from. *)
Theorem generate_one_closing_event (tokens : list outcome) :
  let r := generate tokens in
  length (events r) = pulled r
  /\ exists (toks : list string) (closing : event),
       events r = (content_event <$> toks) ++ [closing]
       /\ ((closing = Done /\ tokens = Yield <$> toks /\ unread r = [])
           \/ (exists e, closing = error_event e
                         /\ tokens = (Yield <$> toks) ++ Raise e :: unread r)).
Proof.
  intros r. subst r.
  destruct (generate_shape tokens) as (toks & Hp & Hshape). split.
  - rewrite Hp.
    destruct Hshape as [(_ & -> & _)|(e & _ & ->)];
      rewrite length_app, length_fmap; cbn; lia.
  - destruct Hshape as [(Ht & He & Hu)|(e & Ht & He)].
    + exists toks, Done. split; [done|]. by left.
    + exists toks, (error_event e). split; [done|]. right. by exists e.
Qed.

(** X2.  In streaming mode, once retrieval has succeeded, [chat] always
    answers with a stream: a failure of the chain, even before its first
    token, is reported as the closing event of the stream and never as an
    HTTP error. *)
Theorem chat_stream_reports_failure_in_band
    (retriever_invoke : string -> result (list Document))
    (chain_stream : GenerationRequest -> list outcome)
    (chain_invoke : GenerationRequest -> result string)
    (request : ChatRequest) (docs : list Document) :
  retriever_invoke (message request) = inr docs ->
  stream request = Some true ->
  exists (toks : list string) (closing : event),
    chat retriever_invoke chain_stream chain_invoke request
    = StreamingResponse ((content_event <$> toks) ++ [closing])
    /\ (closing = Done \/ exists e, closing = error_event e)
    /\ (chain_stream (assemble request docs) = Yield <$> toks
        \/ exists e rest,
             chain_stream (assemble request docs)
             = (Yield <$> toks) ++ Raise e :: rest
             /\ closing = error_event e).
Proof.
  intros Hdocs Hstream. unfold chat. rewrite Hdocs, Hstream.
  destruct (generate_shape (chain_stream (assemble request docs)))
    as (toks & _ & [(Ht & He & _)|(e & Ht & He)]).
  - exists toks, Done. rewrite He. split; [done|]. split; [by left|by left].
  - exists toks, (error_event e). rewrite He. split; [done|].
    split; [right; by exists e|]. right. exists e. eexists. by split.
Qed.

Lemma chat_stream_reports_failure_in_band_witness :
  exists (toks : list string) (closing : event),
    chat (fun _ => inr []) (fun _ => [Yield "a"; Raise (Exception "boom")])
         (fun _ => inr "unused")
         {| message := "q"; history := None; stream := Some true |}
    = StreamingResponse ((content_event <$> toks) ++ [closing])
    /\ (closing = Done \/ exists e, closing = error_event e)
    /\ ((fun _ : GenerationRequest => [Yield "a"; Raise (Exception "boom")])
          (assemble {| message := "q"; history := None; stream := Some true |}
                    [])
        = Yield <$> toks
        \/ exists e rest,
             (fun _ : GenerationRequest => [Yield "a"; Raise (Exception "boom")])
               (assemble {| message := "q"; history := None;
                            stream := Some true |} [])
             = (Yield <$> toks) ++ Raise e :: rest
             /\ closing = error_event e).
Proof.
  apply (chat_stream_reports_failure_in_band
           (fun _ => inr []) (fun _ => [Yield "a"; Raise (Exception "boom")])
           (fun _ => inr "unused")
           {| message := "q"; history := None; stream := Some true |} []);
    reflexivity.
Defined.

(** X3.  [chat] answers with an HTTP error exactly when retrieval raised, or
    when, outside streaming mode, the chain raised; the status is then 500
    and the detail is [str(e)]. *)
Theorem chat_http_error_iff
    (retriever_invoke : string -> result (list Document))
    (chain_stream : GenerationRequest -> list outcome)
    (chain_invoke : GenerationRequest -> result string)
    (request : ChatRequest) (status_code : nat) (detail : string) :
  chat retriever_invoke chain_stream chain_invoke request
  = HTTPException status_code detail
  <-> status_code = 500
      /\ ((exists e, retriever_invoke (message request) = inl e
                     /\ detail = str_exn e)
          \/ (exists docs e,
                retriever_invoke (message request) = inr docs
                /\ stream request <> Some true
                /\ chain_invoke (assemble request docs) = inl e
                /\ detail = str_exn e)).
Proof.
  unfold chat. split.
  - destruct (retriever_invoke (message request)) as [e|docs] eqn:Hr.
    + intros [= <- <-]. split; [done|]. left. by exists e.
    + destruct (stream request) as [[|]|] eqn:Hs; [discriminate| |];
        (destruct (chain_invoke (assemble request docs)) as [e|a] eqn:Hc;
         [|discriminate]; intros [= <- <-]; split; [done|]; right;
         exists docs, e; repeat split; done).
  - intros [-> [(e & -> & ->)|(docs & e & -> & Hs & Hc & ->)]]; [done|].
    destruct (stream request) as [[|]|]; [done| |]; by rewrite Hc.
Qed.

End StreamShape.

Section Answers.
Import RagApi.

Lemma string_length_app (s1 s2 : string) :
  String.length (s1 +:+ s2) = String.length s1 + String.length s2.
Proof.
  induction s1 as [|a s1 IH]; [reflexivity|].
  change (S (String.length (s1 +:+ s2)) = S (String.length s1 + String.length s2)).
  by rewrite IH.
Qed.

Lemma py_str_prefix_length (n : nat) (s : string) :
  String.length (py_str_prefix n s) = Nat.min n (String.length s).
Proof.
  unfold py_str_prefix. revert s.
  induction n as [|n IH]; intros [|a s]; cbn; try done.
  by rewrite IH.
Qed.

Lemma py_str_prefix_short (n : nat) (s : string) :
  String.length s <= n -> py_str_prefix n s = s.
Proof.
  unfold py_str_prefix. revert s.
  induction n as [|n IH]; intros [|a s] Hlen; cbn in *; try done; [lia|].
  rewrite IH; [done|lia].
Qed.

Lemma py_str_prefix_is_prefix (n : nat) (s : string) :
  exists rest, s = py_str_prefix n s +:+ rest.
Proof.
  unfold py_str_prefix. revert s.
  induction n as [|n IH]; intros [|a s]; cbn [String.substring].
  - by exists "".
  - by exists (String a s).
  - by exists "".
  - destruct (IH s) as [rest Hrest]. exists rest.
    change (String a s = String a (String.substring 0 n s +:+ rest)).
    by rewrite <- Hrest.
Qed.

(** X4.  Outside streaming mode, when retrieval and the chain succeed, the
    answer comes with one source per retrieved document, in retrieval
    order.  A source is the beginning of the document, its first 200
    characters or all of it when it is shorter, followed by three dots, so
    at most 203 characters; the dots are added also when the document is
    short and nothing was cut. *)
Theorem json_sources_are_bounded_previews
    (retriever_invoke : string -> result (list Document))
    (chain_stream : GenerationRequest -> list outcome)
    (chain_invoke : GenerationRequest -> result string)
    (request : ChatRequest) (docs : list Document) (answer : string) :
  retriever_invoke (message request) = inr docs ->
  stream request <> Some true ->
  chain_invoke (assemble request docs) = inr answer ->
  exists sources : list string,
    chat retriever_invoke chain_stream chain_invoke request
    = JsonResponse answer sources
    /\ length sources = length docs
    /\ forall k doc,
         docs !! k = Some doc ->
         exists beginning rest,
           page_content doc = beginning +:+ rest
           /\ String.length beginning
              = Nat.min 200 (String.length (page_content doc))
           /\ sources !! k = Some (beginning +:+ "...")
           /\ String.length (beginning +:+ "...") <= 203
           /\ (String.length (page_content doc) <= 200 ->
               sources !! k = Some (page_content doc +:+ "...")).
Proof.
  intros Hdocs Hstream Hanswer. eexists. split; [|split].
  - unfold chat. rewrite Hdocs.
    destruct (stream request) as [[|]|]; [done| |]; by rewrite Hanswer.
  - by rewrite length_map.
  - intros k doc Hk.
    destruct (py_str_prefix_is_prefix 200 (page_content doc)) as [rest Hrest].
    exists (py_str_prefix 200 (page_content doc)), rest.
    assert (Hsrc : map (fun doc => py_str_prefix 200 (page_content doc) +:+ "...")
                       docs !! k
                   = Some (py_str_prefix 200 (page_content doc) +:+ "...")).
    { change (map ?f ?l) with (f <$> l). by rewrite list_lookup_fmap, Hk. }
    split; [done|]. split; [apply py_str_prefix_length|]. split; [done|]. split.
    + rewrite string_length_app, py_str_prefix_length.
      change (String.length "...") with 3. lia.
    + intros Hshort. by rewrite Hsrc, py_str_prefix_short.
Qed.

Lemma json_sources_are_bounded_previews_witness :
  exists sources : list string,
    chat (fun _ => inr [ {| page_content := "The quick brown fox jumps over the lazy dog. The quick brown fox jumps over the lazy dog. The quick brown fox jumps over the lazy dog. The quick brown fox jumps over the lazy dog. The quick brown fox jumps over the lazy dog. "; metadata := ∅ |} ])
         (fun _ => []) (fun _ => inr "an answer")
         {| message := "q"; history := None; stream := Some false |}
    = JsonResponse "an answer" sources
    /\ length sources = 1
    /\ forall k doc,
         [ {| page_content := "The quick brown fox jumps over the lazy dog. The quick brown fox jumps over the lazy dog. The quick brown fox jumps over the lazy dog. The quick brown fox jumps over the lazy dog. The quick brown fox jumps over the lazy dog. "; metadata := ∅ |} ] !! k = Some doc ->
         exists beginning rest,
           page_content doc = beginning +:+ rest
           /\ String.length beginning
              = Nat.min 200 (String.length (page_content doc))
           /\ sources !! k = Some (beginning +:+ "...")
           /\ String.length (beginning +:+ "...") <= 203
           /\ (String.length (page_content doc) <= 200 ->
               sources !! k = Some (page_content doc +:+ "...")).
Proof.
  apply (json_sources_are_bounded_previews
           (fun _ => inr [ {| page_content := "The quick brown fox jumps over the lazy dog. The quick brown fox jumps over the lazy dog. The quick brown fox jumps over the lazy dog. The quick brown fox jumps over the lazy dog. The quick brown fox jumps over the lazy dog. "; metadata := ∅ |} ])
           (fun _ => []) (fun _ => inr "an answer")
           {| message := "q"; history := None; stream := Some false |}
           [ {| page_content := "The quick brown fox jumps over the lazy dog. The quick brown fox jumps over the lazy dog. The quick brown fox jumps over the lazy dog. The quick brown fox jumps over the lazy dog. The quick brown fox jumps over the lazy dog. "; metadata := ∅ |} ] "an answer").
  - reflexivity.
  - discriminate.
  - reflexivity.
Defined.

Lemma context_of_cons_not_empty (doc : Document) (docs : list Document) :
  format_context (doc :: docs) <> "".
Proof.
  rewrite format_context_blocks. unfold context_of.
  cbn [imap concat_strings foldr]. unfold document_block, nl. discriminate.
Qed.

(** X5.  The context handed to the chain is the empty string exactly when
    nothing was retrieved, and the history block is the empty string
    exactly when the request has no history or an empty one. *)
Theorem assembled_parts_empty_iff (request : ChatRequest)
    (docs : list Document) :
  (context (assemble request docs) = "" <-> docs = [])
  /\ (conversation_history (assemble request docs) = ""
      <-> history request = None \/ history request = Some []).
Proof.
  cbn [assemble context conversation_history]. split.
  - split; [|by intros ->].
    destruct docs as [|doc docs]; [done|].
    intros H. by apply context_of_cons_not_empty in H.
  - split.
    + destruct (history request) as [[|m h]|]; [by right| |by left].
      rewrite format_history_block. unfold history_block_of. discriminate.
    + by intros [->| ->].
Qed.

(** X6.  Retrieving more documents only appends to the context: the blocks
    of the documents already there stay as they are, and the new blocks
    carry on the numbering. *)
Theorem format_context_app (docs1 docs2 : list Document) :
  format_context (docs1 ++ docs2)
  = format_context docs1
    +:+ concat_strings
          (imap (fun k doc => document_block (S (length docs1 + k)) doc) docs2).
Proof.
  unfold format_context. rewrite fold_left_app.
  rewrite (fold_context_step docs1 1 ""). rewrite fold_context_step.
  cbn [snd]. reflexivity.
Qed.

(** X7.  Once a history holds at least 6 turns, any turns placed before
    them change nothing in the history block. *)
Theorem format_history_ignores_older_turns (older h : list Message) :
  6 <= length h ->
  format_history (Some (older ++ h)) = format_history (Some h).
Proof.
  intros Hlen. rewrite !format_history_block, !recent_history_drop.
  assert (Hdrop : drop (length (older ++ h) - 6) (older ++ h)
                  = drop (length h - 6) h).
  { rewrite length_app. rewrite drop_app_ge by lia. f_equal. lia. }
  rewrite Hdrop.
  destruct h as [|m h]; [cbn in Hlen; lia|].
  destruct older as [|m' older]; reflexivity.
Qed.

Lemma format_history_ignores_older_turns_witness :
  format_history
    (Some ([ {| role := "user"; content := "old" |} ]
           ++ replicate 6 {| role := "assistant"; content := "x" |}))
  = format_history
      (Some (replicate 6 {| role := "assistant"; content := "x" |})).
Proof.
  apply (format_history_ignores_older_turns
           [ {| role := "user"; content := "old" |} ]
           (replicate 6 {| role := "assistant"; content := "x" |})).
  cbn. lia.
Defined.

End Answers.

(** * Further properties of [vector_builder.py] *)

Section Loading.
Import VectorBuilder.

Lemma no_content_false (c : cell) :
  no_content c = false -> isna c = false /\ strip (str_cell c) <> "".
Proof.
  unfold no_content. intros [Hna Hs]%orb_false_elim. split; [done|].
  intros Hempty. rewrite Hempty in Hs. discriminate Hs.
Qed.

Lemma documents_of_count cc mc (rows : list row) :
  forall i,
    Forall (fun r : row => is_Some (r !! cc)) rows ->
    length (documents_of cc mc i rows)
    + length (List.filter (row_skipped cc) rows)
    = length rows.
Proof.
  induction rows as [|r rows IH]; intros i Hcols; [reflexivity|].
  apply Forall_cons in Hcols as [[c Hc] Hcols].
  cbn [documents_of List.filter]. unfold row_skipped at 1. rewrite Hc.
  specialize (IH (S i) Hcols).
  destruct (no_content c); cbn [length]; lia.
Qed.

(** The documents of a frame, row by row: each comes from a row that has
    content, carries that row's index, and the indices grow. *)
Lemma documents_of_rows cc mc (rows : list row) :
  forall i,
    exists js : list nat,
      StronglySorted lt js
      /\ Forall2
           (fun doc j =>
              i <= j
              /\ exists (r : row) (c : cell),
                   rows !! (j - i) = Some r
                   /\ r !! cc = Some c
                   /\ no_content c = false
                   /\ doc = {| page_content := str_cell c;
                               metadata := build_metadata j mc r |})
           (documents_of cc mc i rows) js.
Proof.
  induction rows as [|r rows IH]; intros i.
  - exists []. split; constructor.
  - destruct (IH (S i)) as (js & Hsorted & Hdocs).
    assert (Hshift : Forall2
              (fun doc j =>
                 i <= j
                 /\ exists (r' : row) (c : cell),
                      (r :: rows) !! (j - i) = Some r'
                      /\ r' !! cc = Some c
                      /\ no_content c = false
                      /\ doc = {| page_content := str_cell c;
                                  metadata := build_metadata j mc r' |})
              (documents_of cc mc (S i) rows) js).
    { eapply Forall2_impl; [exact Hdocs|].
      intros doc j (Hj & r' & c & Hr' & Hc & Hn & ->). split; [lia|].
      exists r', c. repeat split; try done.
      replace (j - i) with (S (j - S i)) by lia. exact Hr'. }
    cbn [documents_of].
    destruct (r !! cc) as [c|] eqn:Hc; [|by exists js].
    destruct (no_content c) eqn:Hn; [by exists js|].
    exists (i :: js). split.
    + constructor; [done|].
      clear -Hdocs. induction Hdocs as [|doc j docs js [Hj _] _ IH'];
        constructor; [lia|done].
    + constructor; [|done]. split; [done|]. exists r, c.
      rewrite Nat.sub_diag. by repeat split.
Qed.

Lemma documents_of_complete cc mc (rows : list row) :
  forall i k (r : row) c,
    rows !! k = Some r -> r !! cc = Some c -> no_content c = false ->
    {| page_content := str_cell c; metadata := build_metadata (i + k) mc r |}
    ∈ documents_of cc mc i rows.
Proof.
  induction rows as [|r' rows IH]; intros i k r c Hk Hc Hn; [done|].
  cbn [documents_of]. destruct k as [|k].
  - injection Hk as ->. rewrite Hc, Hn, Nat.add_0_r. by left.
  - cbn in Hk. specialize (IH (S i) k r c Hk Hc Hn).
    replace (S i + k) with (i + S k) in IH by lia.
    destruct (r' !! cc) as [c'|]; [|done].
    destruct (no_content c'); [done|by right].
Qed.

Lemma process_rows_missing_column cc mc (rows : list row) :
  forall i docs sk,
    Exists (fun r : row => r !! cc = None) rows ->
    process_rows cc mc i rows docs sk = inl (Exception (py_repr cc)).
Proof.
  induction rows as [|r rows IH]; intros i docs sk Hex.
  - by apply Exists_nil in Hex.
  - cbn [process_rows]. destruct (r !! cc) as [c|] eqn:Hc; [|done].
    apply Exists_cons in Hex as [Hr|Hex]; [congruence|].
    destruct (no_content c); by apply IH.
Qed.

(** X8.  When the rows load, every row is either made a document or counted
    as skipped, never both and never neither: processed plus skipped is the
    number of rows, also in the summary of a build that returns. *)
Theorem processed_plus_skipped_is_row_count
    (vector : Type) (embed : string -> result vector)
    (split_text : nat -> nat -> string -> list string)
    (cc : string) (mc : option (list string)) (rows : list row)
    (docs : list Document) (skipped : nat) :
  load_documents cc mc rows = inr (docs, skipped) ->
  length docs + skipped = length rows
  /\ forall index cs co index' rep,
       build_vector_db vector embed split_text index rows cc mc cs co
       = inr (index', rep) ->
       documents_processed rep + documents_skipped rep = length rows.
Proof.
  intros Hload.
  assert (Hcount : length docs + skipped = length rows).
  { pose proof (process_rows_columns _ _ _ _ _ _ _ Hload) as Hcols.
    apply load_documents_inv in Hload as [-> ->].
    by apply documents_of_count. }
  split; [done|].
  intros index cs co index' rep
    (docs' & sk' & vs & Hload' & _ & _ & _ & ->)%build_vector_db_inv.
  rewrite Hload in Hload'. injection Hload' as <- <-. exact Hcount.
Qed.

Lemma processed_plus_skipped_is_row_count_witness :
  2 + 1 = length [content_row "good"; content_row "  "; content_row "bad"]
  /\ forall index cs co index' rep,
       build_vector_db nat length_embed window_split index
         [content_row "good"; content_row "  "; content_row "bad"]
         "content" None cs co
       = inr (index', rep) ->
       documents_processed rep + documents_skipped rep
       = length [content_row "good"; content_row "  "; content_row "bad"].
Proof.
  apply (processed_plus_skipped_is_row_count nat length_embed window_split
           "content" None
           [content_row "good"; content_row "  "; content_row "bad"]
           [ {| page_content := "good"; metadata := {[ "row_id" := MInt 0 ]} |};
             {| page_content := "bad"; metadata := {[ "row_id" := MInt 2 ]} |} ]
           1).
  vm_compute. reflexivity.
Defined.

(** X9.  When the sizes pass the splitter's checks and some row lacks the
    content column, whose name is ASCII text, loading raises the [KeyError]
    of that column, whose text is [repr] of the name, and so does the
    build, before any text is split or embedded: whatever the splitter and
    the embedding function do, the error is the same. *)
Theorem missing_content_column_raises
    (vector : Type) (embed : string -> result vector)
    (split_text : nat -> nat -> string -> list string)
    (index : gmap string (entry vector))
    (cc : string) (mc : option (list string)) (rows : list row)
    (cs co : nat) (r : row) :
  0 < cs ->
  co <= cs ->
  ascii_text cc = true ->
  r ∈ rows ->
  r !! cc = None ->
  load_documents cc mc rows = inl (Exception (py_repr cc))
  /\ build_vector_db vector embed split_text index rows cc mc cs co
     = inl (Exception (py_repr cc)).
Proof.
  intros Hcs Hco _ Hin Hr.
  assert (Hload : load_documents cc mc rows = inl (Exception (py_repr cc))).
  { apply process_rows_missing_column, Exists_exists. by exists r. }
  split; [done|]. unfold build_vector_db, bind.
  by rewrite (proj2 (text_splitter_init_ok cs co) (conj Hcs Hco)), Hload.
Qed.

Lemma missing_content_column_raises_witness :
  load_documents "text" None [content_row "good"]
  = inl (Exception "'text'")
  /\ build_vector_db nat length_embed window_split ∅ [content_row "good"]
       "text" None 1000 100
     = inl (Exception "'text'").
Proof.
  apply (missing_content_column_raises nat length_embed window_split ∅
           "text" None [content_row "good"] 1000 100 (content_row "good")).
  - lia.
  - lia.
  - reflexivity.
  - apply list_elem_of_singleton. reflexivity.
  - vm_compute. reflexivity.
Defined.

End Loading.

Section Documents.
Import VectorBuilder.

(** X10.  Every document the rows produce comes from a row of the frame
    whose content cell is present and not blank: its text is [str] of that
    cell, so it is never empty or whitespace only, and its metadata is the
    one built for that row's index. *)
Theorem document_comes_from_row_with_content
    (cc : string) (mc : option (list string)) (rows : list row)
    (docs : list Document) (skipped : nat) (doc : Document) :
  load_documents cc mc rows = inr (docs, skipped) ->
  doc ∈ docs ->
  strip (page_content doc) <> ""
  /\ exists (j : nat) (r : row) (c : cell),
       rows !! j = Some r
       /\ r !! cc = Some c
       /\ isna c = false
       /\ page_content doc = str_cell c
       /\ metadata doc = build_metadata j mc r.
Proof.
  intros [-> _]%load_documents_inv Hdoc.
  destruct (documents_of_rows cc mc rows 0) as (js & _ & Hdocs).
  apply list_elem_of_lookup in Hdoc as [k Hk].
  destruct (Forall2_lookup_l _ _ _ _ _ Hdocs Hk)
    as (j & _ & _ & r & c & Hr & Hc & Hn & ->).
  rewrite Nat.sub_0_r in Hr.
  apply no_content_false in Hn as [Hna Hs]. split; [done|].
  by exists j, r, c.
Qed.

Lemma document_comes_from_row_with_content_witness :
  strip (page_content
           {| page_content := "bad"; metadata := {[ "row_id" := MInt 2 ]} |})
  <> ""
  /\ exists (j : nat) (r : row) (c : cell),
       [content_row "good"; content_row "  "; content_row "bad"] !! j = Some r
       /\ r !! "content" = Some c
       /\ isna c = false
       /\ page_content
            {| page_content := "bad"; metadata := {[ "row_id" := MInt 2 ]} |}
          = str_cell c
       /\ metadata
            {| page_content := "bad"; metadata := {[ "row_id" := MInt 2 ]} |}
          = build_metadata j None r.
Proof.
  apply (document_comes_from_row_with_content "content" None
           [content_row "good"; content_row "  "; content_row "bad"]
           [ {| page_content := "good"; metadata := {[ "row_id" := MInt 0 ]} |};
             {| page_content := "bad"; metadata := {[ "row_id" := MInt 2 ]} |} ]
           1
           {| page_content := "bad"; metadata := {[ "row_id" := MInt 2 ]} |}).
  - vm_compute. reflexivity.
  - right. left.
Defined.

(** X11.  No row with content is lost: when the rows load, the row at index
    [j], if its content cell is neither missing nor blank, is among the
    documents, with [str] of the cell as text and the metadata built for
    index [j]. *)
Theorem row_with_content_becomes_document
    (cc : string) (mc : option (list string)) (rows : list row)
    (docs : list Document) (skipped : nat)
    (j : nat) (r : row) (c : cell) :
  load_documents cc mc rows = inr (docs, skipped) ->
  rows !! j = Some r ->
  r !! cc = Some c ->
  no_content c = false ->
  {| page_content := str_cell c; metadata := build_metadata j mc r |} ∈ docs.
Proof.
  intros [-> _]%load_documents_inv Hj Hc Hn.
  exact (documents_of_complete cc mc rows 0 j r c Hj Hc Hn).
Qed.

Lemma row_with_content_becomes_document_witness :
  {| page_content := str_cell (Text "bad");
     metadata := build_metadata 2 None (content_row "bad") |}
  ∈ [ {| page_content := "good"; metadata := {[ "row_id" := MInt 0 ]} |};
      {| page_content := "bad"; metadata := {[ "row_id" := MInt 2 ]} |} ].
Proof.
  apply (row_with_content_becomes_document "content" None
           [content_row "good"; content_row "  "; content_row "bad"]
           [ {| page_content := "good"; metadata := {[ "row_id" := MInt 0 ]} |};
             {| page_content := "bad"; metadata := {[ "row_id" := MInt 2 ]} |} ]
           1 2 (content_row "bad") (Text "bad")).
  - vm_compute. reflexivity.
  - reflexivity.
  - vm_compute. reflexivity.
  - vm_compute. reflexivity.
Defined.

Lemma documents_of_position cc mc (rows : list row) :
  forall i k doc,
    Forall (fun r : row => is_Some (r !! cc)) rows ->
    documents_of cc mc i rows !! k = Some doc ->
    exists m (r : row) (c : cell),
      rows !! m = Some r
      /\ r !! cc = Some c
      /\ doc = {| page_content := str_cell c;
                  metadata := build_metadata (i + m) mc r |}
      /\ m = k + length (List.filter (row_skipped cc) (take m rows)).
Proof.
  induction rows as [|r rows IH]; intros i k doc Hcols Hk; [done|].
  apply Forall_cons in Hcols as [[c Hc] Hcols].
  cbn [documents_of] in Hk. rewrite Hc in Hk.
  assert (Hnext : forall k',
            documents_of cc mc (S i) rows !! k' = Some doc ->
            exists m (r' : row) (c' : cell),
              rows !! m = Some r'
              /\ r' !! cc = Some c'
              /\ doc = {| page_content := str_cell c';
                          metadata := build_metadata (i + S m) mc r' |}
              /\ m = k' + length (List.filter (row_skipped cc) (take m rows))).
  { intros k' (m & r' & c' & Hm & Hc' & -> & Hpos)%(IH _ _ _ Hcols).
    exists m, r', c'. split; [done|]. split; [done|].
    split; [do 2 f_equal; lia|done]. }
  destruct (no_content c) eqn:Hn.
  - destruct (Hnext k Hk) as (m & r' & c' & Hm & Hc' & -> & Hpos).
    exists (S m), r', c'. split; [done|]. split; [done|]. split; [done|].
    cbn [take List.filter]. unfold row_skipped at 1. rewrite Hc, Hn.
    cbn [length]. lia.
  - destruct k as [|k].
    + injection Hk as <-. exists 0, r, c. split; [done|]. split; [done|].
      split; [by rewrite Nat.add_0_r|done].
    + destruct (Hnext k Hk) as (m & r' & c' & Hm & Hc' & -> & Hpos).
      exists (S m), r', c'. split; [done|]. split; [done|]. split; [done|].
      cbn [take List.filter]. unfold row_skipped at 1. rewrite Hc, Hn. lia.
Qed.

(** X12.  Unless a metadata column is itself named [row_id], the [row_id]
    of the document at position [k] is the frame index [j] of the row its
    text comes from, and [j] is [k] plus the number of rows skipped before
    that row: skipped rows keep their index, so skipping leaves a gap in
    the [row_id]s. *)
Theorem row_id_is_position_plus_skipped_rows
    (cc : string) (mc : option (list string)) (rows : list row)
    (docs : list Document) (skipped : nat) (k : nat) (doc : Document) :
  "row_id" ∉ default [] mc ->
  load_documents cc mc rows = inr (docs, skipped) ->
  docs !! k = Some doc ->
  exists (j : nat) (r : row) (c : cell),
    rows !! j = Some r
    /\ r !! cc = Some c
    /\ page_content doc = str_cell c
    /\ metadata doc !! "row_id" = Some (MInt (Z.of_nat j))
    /\ j = k + length (List.filter (row_skipped cc) (take j rows)).
Proof.
  intros Hcol Hload Hk.
  pose proof (process_rows_columns _ _ _ _ _ _ _ Hload) as Hcols.
  apply load_documents_inv in Hload as [-> _].
  destruct (documents_of_position cc mc rows 0 k doc Hcols Hk)
    as (j & r & c & Hr & Hc & -> & Hpos).
  exists j, r, c. split; [done|]. split; [done|]. split; [done|].
  split; [|done]. cbn [metadata Nat.add].
  rewrite build_metadata_lookup. rewrite decide_False by done.
  by rewrite decide_True.
Qed.

Lemma row_id_is_position_plus_skipped_rows_witness :
  exists (j : nat) (r : row) (c : cell),
    [content_row "good"; content_row "  "; content_row "bad"] !! j = Some r
    /\ r !! "content" = Some c
    /\ page_content
         {| page_content := "bad"; metadata := {[ "row_id" := MInt 2 ]} |}
       = str_cell c
    /\ metadata
         {| page_content := "bad"; metadata := {[ "row_id" := MInt 2 ]} |}
         !! "row_id"
       = Some (MInt (Z.of_nat j))
    /\ j = 1 + length (List.filter (row_skipped "content")
                         (take j [content_row "good"; content_row "  ";
                                  content_row "bad"])).
Proof.
  apply (row_id_is_position_plus_skipped_rows "content" None
           [content_row "good"; content_row "  "; content_row "bad"]
           [ {| page_content := "good"; metadata := {[ "row_id" := MInt 0 ]} |};
             {| page_content := "bad"; metadata := {[ "row_id" := MInt 2 ]} |} ]
           1 1
           {| page_content := "bad"; metadata := {[ "row_id" := MInt 2 ]} |}).
  - apply not_elem_of_nil.
  - vm_compute. reflexivity.
  - reflexivity.
Defined.

(** X13.  A listed metadata column that the row has with a cell that is not
    missing is copied into the metadata as [str] of the cell, whatever came
    before it in the list, the key [row_id] included. *)
Theorem metadata_column_is_copied_as_text
    (i : nat) (cols : list string) (r : row) (col : string) (c : cell) :
  col ∈ cols ->
  r !! col = Some c ->
  isna c = false ->
  build_metadata i (Some cols) r !! col = Some (MStr (str_cell c)).
Proof.
  intros Hin Hc Hna. rewrite build_metadata_lookup. cbn [default].
  by rewrite decide_True, Hc, Hna.
Qed.

Lemma metadata_column_is_copied_as_text_witness :
  build_metadata 4 (Some ["source"; "row_id"])
    (<["row_id" := Int 7]> (<["source" := Text "faq"]> (content_row "x")))
    !! "row_id"
  = Some (MStr (str_cell (Int 7))).
Proof.
  apply (metadata_column_is_copied_as_text 4 ["source"; "row_id"]
           (<["row_id" := Int 7]> (<["source" := Text "faq"]> (content_row "x")))
           "row_id" (Int 7)).
  - right. left.
  - vm_compute. reflexivity.
  - reflexivity.
Defined.

(** X14.  The metadata of a row always has the key [row_id]; any other key
    it has is a listed column that the row has with a cell that is not
    missing.  A listed column that the row lacks, or whose cell is missing,
    leaves no key. *)
Theorem metadata_keys (i : nat) (mc : option (list string)) (r : row)
    (k : string) :
  is_Some (build_metadata i mc r !! "row_id")
  /\ (is_Some (build_metadata i mc r !! k) <->
      k = "row_id"
      \/ (k ∈ default [] mc /\ exists c, r !! k = Some c /\ isna c = false)).
Proof.
  rewrite !build_metadata_lookup. split.
  - destruct (decide ("row_id" = "row_id")) as [_|?]; [|done].
    destruct (decide ("row_id" ∈ default [] mc)); [|by eexists].
    destruct (r !! "row_id") as [c|]; [|by eexists].
    destruct (isna c); by eexists.
  - destruct (decide (k ∈ default [] mc)) as [Hin|Hin].
    + destruct (r !! k) as [c|] eqn:Hc.
      * destruct (isna c) eqn:Hna.
        -- destruct (decide (k = "row_id")) as [->|Hne]; split.
           ++ by left.
           ++ by eexists.
           ++ by intros [? ?].
           ++ intros [?|(_ & c' & [= <-] & Hna')]; [done|congruence].
        -- split; [|by eexists]. intros _. right. split; [done|]. by exists c.
      * destruct (decide (k = "row_id")) as [->|Hne]; split.
        -- by left.
        -- by eexists.
        -- by intros [? ?].
        -- intros [?|(_ & c' & ? & _)]; done.
    + destruct (decide (k = "row_id")) as [->|Hne]; split.
      * by left.
      * by eexists.
      * by intros [? ?].
      * intros [?|(? & _)]; done.
Qed.

End Documents.

Section Blank.
Import VectorBuilder.

Lemma rstrip_empty_iff (s : string) :
  rstrip s = "" <-> forallb is_space (list_ascii_of_string s) = true.
Proof.
  induction s as [|a s IH]; [done|].
  cbn [rstrip list_ascii_of_string forallb].
  destruct (rstrip s) as [|b t] eqn:Hr.
  - destruct (is_space a); cbn [andb]; [|done].
    split; [intros _; by apply IH|done].
  - split; [done|]. intros [_ Hs]%andb_true_iff.
    apply IH in Hs. discriminate Hs.
Qed.

Lemma lstrip_all_space (s : string) :
  forallb is_space (list_ascii_of_string (lstrip s))
  = forallb is_space (list_ascii_of_string s).
Proof.
  induction s as [|a s IH]; [done|].
  cbn [lstrip]. destruct (is_space a) eqn:Ha; [|done].
  cbn [list_ascii_of_string forallb]. by rewrite Ha, IH.
Qed.

Lemma forallb_Forall_true {A} (f : A -> bool) (l : list A) :
  forallb f l = true <-> Forall (fun a => f a = true) l.
Proof.
  induction l as [|a l IH]; [by split; [constructor|]|].
  cbn [forallb]. rewrite andb_true_iff, Forall_cons, IH. done.
Qed.

(** X15.  For ASCII text, a text cell counts as having no content exactly
    when every one of its characters is one of the ASCII whitespace
    characters [str.strip()] removes; the empty text is the case of no
    character at all.  A missing cell always counts as having no content. *)
Theorem text_without_content_iff (s : string) :
  ascii_text s = true ->
  (no_content (Text s) = true
   <-> Forall (fun a => is_space a = true) (list_ascii_of_string s))
  /\ no_content NA = true.
Proof.
  intros _. split; [|reflexivity].
  rewrite <- forallb_Forall_true, <- lstrip_all_space, <- rstrip_empty_iff.
  unfold no_content, strip. cbn [isna str_cell orb].
  destruct (rstrip (lstrip s)); cbn [truthy negb]; done.
Qed.

Lemma text_without_content_iff_witness :
  (no_content (Text "  a ") = true
   <-> Forall (fun a => is_space a = true) (list_ascii_of_string "  a "))
  /\ no_content NA = true.
Proof.
  apply (text_without_content_iff "  a "). reflexivity.
Defined.

End Blank.

Section Stale.
Import VectorBuilder.

Variable vector : Type.
Variable embed : string -> result vector.
Variable split_text : nat -> nat -> string -> list string.

Lemma fold_upsert_lookup_other (items : list (string * Document * vector)) :
  forall (index : gmap string (entry vector)) id,
    id ∉ fst <$> (fst <$> items) ->
    fold_left (upsert_step vector) items index !! id = index !! id.
Proof.
  induction items as [|[[id' doc] v] items IH]; intros index id Hid; [done|].
  cbn [fold_left]. rewrite !fmap_cons in Hid. cbn [fst] in Hid.
  apply not_elem_of_cons in Hid as [Hne Hid].
  rewrite IH by done. cbn [upsert_step]. unfold upsert.
  by rewrite lookup_insert_ne.
Qed.

(** X16.  A build that returns writes under the ids [doc_0] to
    [doc_<n-1>] of its [n] fragments and nowhere else: whatever the index
    held under any other id before the build, an entry left by an earlier,
    larger build for instance, is still there, unchanged. *)
Theorem build_keeps_entries_under_other_ids
    (index : gmap string (entry vector)) (rows : list row)
    (cc : string) (mc : option (list string)) (cs co : nat)
    (index' : gmap string (entry vector)) (rep : report) (id : string) :
  build_vector_db vector embed split_text index rows cc mc cs co
  = inr (index', rep) ->
  id ∉ make_ids (fragments_created rep) ->
  index' !! id = index !! id.
Proof.
  intros (docs & sk & vs & _ & Hvs & _ & -> & ->)%build_vector_db_inv Hid.
  cbn zeta in *. cbn [fragments_created] in Hid.
  apply fold_upsert_lookup_other. rewrite batch_keys; [done|].
  apply embed_documents_length in Hvs. by rewrite length_map in Hvs.
Qed.

End Stale.

Section StaleRun.
Import VectorBuilder.

Lemma build_keeps_entries_under_other_ids_witness :
  (<["doc_0" := {| entry_embedding := 1; entry_text := "z";
                   entry_metadata := {[ "row_id" := MInt 0 ]} |}]>
     ({[ "doc_1" := {| entry_embedding := 3; entry_text := "old";
                       entry_metadata := {[ "row_id" := MInt 9 ]} |} ]}
      : gmap string (entry nat)))
    !! "doc_1"
  = ({[ "doc_1" := {| entry_embedding := 3; entry_text := "old";
                      entry_metadata := {[ "row_id" := MInt 9 ]} |} ]}
     : gmap string (entry nat)) !! "doc_1".
Proof.
  apply (build_keeps_entries_under_other_ids nat length_embed window_split
           {[ "doc_1" := {| entry_embedding := 3; entry_text := "old";
                            entry_metadata := {[ "row_id" := MInt 9 ]} |} ]}
           [content_row "z"] "content" None 2 0
           (<["doc_0" := {| entry_embedding := 1; entry_text := "z";
                            entry_metadata := {[ "row_id" := MInt 0 ]} |}]>
              {[ "doc_1" := {| entry_embedding := 3; entry_text := "old";
                               entry_metadata := {[ "row_id" := MInt 9 ]} |} ]})
           {| documents_processed := 1; fragments_created := 1;
              documents_skipped := 0 |}
           "doc_1").
  - vm_compute. reflexivity.
  - vm_compute. intros H. apply list_elem_of_singleton in H. discriminate H.
Defined.

End StaleRun.
